(** * Service tracker suite: income aggregation, rankings, reports, bulk
    import and project-code assignment.

    A shallow embedding of the client-side computations of the dashboard
    (src/pages/Dashboard.tsx), the two leaderboards (src/pages/TopPics.tsx),
    the report filter (Reports page), the spreadsheet parser
    (src/utils/excel-parser.ts) with its upload form, the database backup
    (src/utils/backup-database.ts), and of the [projects] table of the
    first migration with its [generate_pid] / [set_project_pid] functions.

    Conventions of the embedding.
    - A JavaScript number holding an amount or a counter is a [Z]: the column
      [nett_gp] is a [bigint], the counters are small, and on integers of that
      size (below 2^53) the additions of the source are exact.  The one
      quotient of the dashboard, the achievement percentage, is computed as
      the source does, in IEEE 754 binary64 ([Double]).
    - A nullable text column read by the client is an [option string]
      ([None] for [null]/[undefined]).
    - A JavaScript [Map] is an association list in insertion order, which is
      the order [Map.prototype.entries] iterates in.
    - [Array.prototype.sort] is the stable sort driven by the comparator. *)

From Stdlib Require Import ZArith QArith List String Ascii Bool Lia.
From Stdlib Require Import Permutation Sorted.
From Stdlib Require Import DecimalString DecimalPos DecimalZ.
From Stdlib Require SpecFloat.
Import ListNotations.

Local Open Scope string_scope.
Local Open Scope list_scope.
Local Open Scope Z_scope.

(* ================================================================== *)
(** * Part I: definitions *)
(* ================================================================== *)

(** ** JavaScript helpers *)

(** [x || d] on a possibly missing string: the empty string is falsy. *)
Definition or_string (x : option string) (d : string) : string :=
  match x with
  | Some s => if String.eqb s EmptyString then d else s
  | None => d
  end.

(** [x || d] on a possibly missing number: zero is falsy. *)
Definition or_number (x : option Z) (d : Z) : Z :=
  match x with
  | Some v => if v =? 0 then d else v
  | None => d
  end.

(** [x || d] on a possibly missing object: every object is truthy. *)
Definition or_object {A : Type} (x : option A) (d : A) : A :=
  match x with
  | Some a => a
  | None => d
  end.

(** The doubles of JavaScript, for the one place where the pages divide:
    IEEE 754 binary64 with rounding to nearest, ties to even, as the
    Standard Library specifies it. *)
Module Double.
Definition prec : Z := 53.
Definition emax : Z := 1024.

Definition t : Type := SpecFloat.spec_float.

(** The double of an integer number: the integer itself below 2^53, the
    nearest double beyond. *)
Definition ofZ (n : Z) : t := SpecFloat.binary_normalize prec emax n 0 false.

(** [x / y] and [x * y] *)
Definition div (x y : t) : t := SpecFloat.SFdiv prec emax x y.
Definition mul (x y : t) : t := SpecFloat.SFmul prec emax x y.
End Double.

(** [n.toString()] of an integer. *)
Definition toString (n : Z) : string :=
  NilZero.string_of_int (Z.to_int n).

(** [s.toLowerCase()] on the ASCII range. *)
Definition lower_ascii (c : ascii) : ascii :=
  let n := nat_of_ascii c in
  if (Nat.leb 65 n && Nat.leb n 90)%bool then ascii_of_nat (n + 32) else c.

Fixpoint toLowerCase (s : string) : string :=
  match s with
  | EmptyString => EmptyString
  | String c r => String (lower_ascii c) (toLowerCase r)
  end.

Definition option_string_dec (a b : option string) : {a = b} + {a <> b}.
Proof. decide equality. apply string_dec. Defined.

(** [Map]: insertion-ordered, one entry per key. *)
Module JsMap.
Section Map.
Context {K V : Type}.
Variable K_eq_dec : forall a b : K, {a = b} + {a <> b}.

Fixpoint get (m : list (K * V)) (k : K) : option V :=
    match m with
    | [] => None
    | (k', v) :: r => if K_eq_dec k' k then Some v else get r k
    end.

  (** An existing key keeps its position, a new key goes last. *)
Fixpoint set (m : list (K * V)) (k : K) (v : V) : list (K * V) :=
    match m with
    | [] => [(k, v)]
    | (k', v') :: r =>
        if K_eq_dec k' k then (k, v) :: r else (k', v') :: set r k v
    end.

Definition entries (m : list (K * V)) : list (K * V) := m.
End Map.
End JsMap.

(** Arrays. *)
Module JsArray.
Section Sort.
Context {A : Type}.
Variable compareFn : A -> A -> Z.

  (** [x] stood before every element of [l] in the input: it goes before
      the first element it does not compare greater than. *)
Fixpoint insert (x : A) (l : list A) : list A :=
    match l with
    | [] => [x]
    | y :: r => if compareFn x y <=? 0 then x :: y :: r else y :: insert x r
    end.

Definition sort (l : list A) : list A := fold_right insert [] l.
End Sort.

Definition slice {A : Type} (start stop : nat) (l : list A) : list A :=
  firstn (stop - start) (skipn start l).

Definition forEach {A S : Type} (l : list A) (body : S -> A -> S) (init : S) : S :=
  fold_left body l init.

Definition reduce {A S : Type} (l : list A) (body : S -> A -> S) (init : S) : S :=
  fold_left body l init.

(** [forEach] with the element index. *)
Fixpoint forEach_indexed {A S : Type} (l : list A) (body : S -> A -> nat -> S)
    (index : nat) (init : S) : S :=
  match l with
  | [] => init
  | x :: r => forEach_indexed r body (Datatypes.S index) (body init x index)
  end.

(** [parts.join(sep)]. *)
Fixpoint join (sep : string) (parts : list string) : string :=
  match parts with
  | [] => EmptyString
  | [x] => x
  | x :: r => x ++ sep ++ join sep r
  end.
End JsArray.

(** ** Rows of the store, as the pages read them *)

Module Project.
Record t : Type := mk {
  pid : string;
  business_partner : string;
  end_user : string;
  category : string;
  product : option string;
  pic : option string;
  nett_gp : Z;
  quarter : string;
  year : Z
}.
End Project.

Module Target.
Record t : Type := mk {
  year : Z;
  q1_target : Z;
  q2_target : Z;
  q3_target : Z;
  q4_target : Z;
  yearly_target : Z
}.

(** [targetData[name]] for a computed property name. *)
Definition prop (row : t) (name : string) : option Z :=
  if String.eqb name "year" then Some (year row)
  else if String.eqb name "q1_target" then Some (q1_target row)
  else if String.eqb name "q2_target" then Some (q2_target row)
  else if String.eqb name "q3_target" then Some (q3_target row)
  else if String.eqb name "q4_target" then Some (q4_target row)
  else if String.eqb name "yearly_target" then Some (yearly_target row)
  else None.
End Target.

(** The income sum every page computes:
    [projects.reduce((sum, p) => sum + Number(p.nett_gp), 0)]. *)
Definition sumNettGp (projects : list Project.t) : Z :=
  JsArray.reduce projects (fun sum p => sum + Project.nett_gp p) 0.

(** The accumulator of the ranking maps: [{ total, count }]. *)
Module Acc.
Record t : Type := mk { total : Z; count : Z }.
Definition zero : t := mk 0 0.
End Acc.

(** [PicRanking] and [ProductRanking]: the same three fields, the first one
    named [pic], respectively [product]. *)
Module Ranking.
Record t (K : Type) : Type := mk {
  key : K;
  totalIncome : Z;
  projectCount : Z
}.
Arguments mk {K} _ _ _.
Arguments key {K} _.
Arguments totalIncome {K} _.
Arguments projectCount {K} _.
End Ranking.

(** ** Dashboard.tsx: [fetchDashboardData] *)

Module Dashboard.

Module QuarterEntry.
Record t : Type := mk { quarter : string; income : Z; target : Z }.
End QuarterEntry.

Module CategoryEntry.
Record t : Type := mk { name : string; value : Z }.
End CategoryEntry.

Module DashboardStats.
Record t : Type := mk {
  totalIncome : Z;
  target : Z;
  achievement : Double.t;
  gap : Z;
  quarterlyData : list QuarterEntry.t;
  categoryData : list CategoryEntry.t
}.
End DashboardStats.

Definition quarters : list string := ["Q1"; "Q2"; "Q3"; "Q4"].

Definition yearlyTarget (targetData : option Target.t) : Z :=
  or_number (option_map Target.yearly_target targetData) 0.

Definition achievement (totalIncome yearlyTarget : Z) : Double.t :=
  if 0 <? yearlyTarget
  then Double.mul (Double.div (Double.ofZ totalIncome)
                              (Double.ofZ yearlyTarget))
                  (Double.ofZ 100)
  else Double.ofZ 0.

Definition quarterIncome (projects : list Project.t) (quarter : string) : Z :=
  JsArray.reduce
    (filter (fun p => String.eqb (Project.quarter p) quarter) projects)
    (fun sum p => sum + Project.nett_gp p) 0.

Definition quarterTarget (targetData : option Target.t) (quarter : string) : Z :=
  or_number
    (match targetData with
     | Some row => Target.prop row (toLowerCase quarter ++ "_target")%string
     | None => None
     end) 0.

Definition quarterlyData (projects : list Project.t)
    (targetData : option Target.t) : list QuarterEntry.t :=
  map (fun quarter =>
         QuarterEntry.mk quarter (quarterIncome projects quarter)
                         (quarterTarget targetData quarter))
      quarters.

Definition categoryMap (projects : list Project.t) : list (string * Z) :=
  JsArray.forEach projects
    (fun categoryMap p =>
       let current :=
         or_number (JsMap.get string_dec categoryMap (Project.category p)) 0 in
       JsMap.set string_dec categoryMap (Project.category p)
                 (current + Project.nett_gp p))
    [].

Definition categoryData (projects : list Project.t) : list CategoryEntry.t :=
  map (fun '(name, value) => CategoryEntry.mk name value)
      (JsMap.entries (categoryMap projects)).

Definition stats (projects : list Project.t) (targetData : option Target.t)
    : DashboardStats.t :=
  let totalIncome := sumNettGp projects in
  let yearlyTarget := yearlyTarget targetData in
  let achievement := achievement totalIncome yearlyTarget in
  let gap := yearlyTarget - totalIncome in
  DashboardStats.mk totalIncome yearlyTarget achievement gap
                    (quarterlyData projects targetData)
                    (categoryData projects).

Definition picMap (projects : list Project.t) : list (string * Acc.t) :=
  JsArray.forEach projects
    (fun picMap project =>
       let picName := or_string (Project.pic project) "N/A" in
       let current := or_object (JsMap.get string_dec picMap picName) Acc.zero in
       JsMap.set string_dec picMap picName
                 (Acc.mk (Acc.total current + Project.nett_gp project)
                         (Acc.count current + 1)))
    [].

Definition byTotalIncomeDesc {K : Type} (a b : Ranking.t K) : Z :=
  Ranking.totalIncome b - Ranking.totalIncome a.

Definition topPicsArray (projects : list Project.t) : list (Ranking.t string) :=
  JsArray.slice 0 5
    (JsArray.sort byTotalIncomeDesc
       (map (fun '(pic, data) =>
               Ranking.mk pic (Acc.total data) (Acc.count data))
            (JsMap.entries (picMap projects)))).

Definition productMap (projects : list Project.t) : list (string * Acc.t) :=
  JsArray.forEach projects
    (fun productMap project =>
       let productName := or_string (Project.product project) "N/A" in
       let current :=
         or_object (JsMap.get string_dec productMap productName) Acc.zero in
       JsMap.set string_dec productMap productName
                 (Acc.mk (Acc.total current + Project.nett_gp project)
                         (Acc.count current + 1)))
    [].

Definition topProductsArray (projects : list Project.t)
    : list (Ranking.t string) :=
  JsArray.slice 0 5
    (JsArray.sort byTotalIncomeDesc
       (map (fun '(product, data) =>
               Ranking.mk product (Acc.total data) (Acc.count data))
            (JsMap.entries (productMap projects)))).

(** What the component holds once the fetch has resolved with a project
    list: [setStats], [setTopPics], [setTopProducts]. *)
Record State : Type := mkState {
  st_stats : DashboardStats.t;
  topPics : list (Ranking.t string);
  topProducts : list (Ranking.t string)
}.

Definition fetchDashboardData (projects : list Project.t)
    (targetData : option Target.t) : State :=
  mkState (stats projects targetData)
          (topPicsArray projects)
          (topProductsArray projects).

End Dashboard.

(** ** TopPics.tsx, first component: the PIC leaderboard *)

Module TopPics.

Definition picMap (projects : list Project.t)
    : list (option string * Acc.t) :=
  JsArray.forEach projects
    (fun picMap project =>
       let current :=
         or_object (JsMap.get option_string_dec picMap (Project.pic project))
                   Acc.zero in
       JsMap.set option_string_dec picMap (Project.pic project)
                 (Acc.mk (Acc.total current + Project.nett_gp project)
                         (Acc.count current + 1)))
    [].

Definition rankingsArray (projects : list Project.t)
    : list (Ranking.t (option string)) :=
  JsArray.slice 0 5
    (JsArray.sort Dashboard.byTotalIncomeDesc
       (map (fun '(pic, data) =>
               Ranking.mk pic (Acc.total data) (Acc.count data))
            (JsMap.entries (picMap projects)))).

(** [setRankings(rankingsArray)] once the query has resolved. *)
Definition fetchRankings (projects : list Project.t)
    : list (Ranking.t (option string)) :=
  rankingsArray projects.

End TopPics.

(** ** TopPics.tsx, second component: the product leaderboard *)

Module TopProducts.

Module PicBreakdown.
Record t : Type := mk { pic : option string; income : Z }.
End PicBreakdown.

Module ProductRanking.
Record t : Type := mk {
  product : string;
  totalIncome : Z;
  projectCount : Z;
  pics : list PicBreakdown.t
}.
End ProductRanking.

(** The map's value [{ total, count, pics }].  In the source [pics] is a
    [Map] object mutated in place and handed over to the replacing entry;
    each such object is referenced by the one entry of its product only, so
    the in-place update is the update of that entry's field. *)
Module ProductAcc.
Record t : Type := mk {
  total : Z;
  count : Z;
  pics : list (option string * Z)
}.
Definition zero : t := mk 0 0 [].
End ProductAcc.

Definition productMap (projects : list Project.t)
    : list (string * ProductAcc.t) :=
  JsArray.forEach projects
    (fun productMap project =>
       let productName := or_string (Project.product project) "N/A" in
       let current :=
         or_object (JsMap.get string_dec productMap productName)
                   ProductAcc.zero in
       let picIncome :=
         or_number (JsMap.get option_string_dec (ProductAcc.pics current)
                              (Project.pic project)) 0 in
       let pics :=
         JsMap.set option_string_dec (ProductAcc.pics current)
                   (Project.pic project)
                   (picIncome + Project.nett_gp project) in
       JsMap.set string_dec productMap productName
                 (ProductAcc.mk
                    (ProductAcc.total current + Project.nett_gp project)
                    (ProductAcc.count current + 1)
                    pics))
    [].

Definition byIncomeDesc (a b : PicBreakdown.t) : Z :=
  PicBreakdown.income b - PicBreakdown.income a.

Definition byTotalIncomeDesc (a b : ProductRanking.t) : Z :=
  ProductRanking.totalIncome b - ProductRanking.totalIncome a.

Definition picsArray (pics : list (option string * Z)) : list PicBreakdown.t :=
  JsArray.sort byIncomeDesc
    (map (fun '(pic, income) => PicBreakdown.mk pic income)
         (JsMap.entries pics)).

Definition rankingsArray (projects : list Project.t)
    : list ProductRanking.t :=
  JsArray.slice 0 5
    (JsArray.sort byTotalIncomeDesc
       (map (fun '(product, data) =>
               ProductRanking.mk product
                 (ProductAcc.total data)
                 (ProductAcc.count data)
                 (picsArray (ProductAcc.pics data)))
            (JsMap.entries (productMap projects)))).

Definition fetchRankings (projects : list Project.t)
    : list ProductRanking.t :=
  rankingsArray projects.

End TopProducts.

(** ** Reports page: [applyFilters] and the displayed total *)

Module Reports.

Definition applyFilters (projects : list Project.t)
    (year quarter category : string) : list Project.t :=
  let filtered :=
    filter (fun p => String.eqb (toString (Project.year p)) year) projects in
  let filtered :=
    if negb (String.eqb quarter "all")
    then filter (fun p => String.eqb (Project.quarter p) quarter) filtered
    else filtered in
  let filtered :=
    if negb (String.eqb category "all")
    then filter (fun p => String.eqb (Project.category p) category) filtered
    else filtered in
  filtered.

Definition totalIncome (filteredProjects : list Project.t) : Z :=
  JsArray.reduce filteredProjects (fun sum p => sum + Project.nett_gp p) 0.

(** An element of a row array of the CSV export: text, a number, or
    [null]/[undefined]. *)
Inductive Cell : Type :=
| Text (s : string)
| Number (n : Z)
| Null.

(** How [Array.prototype.join] renders an element. *)
Definition cellText (c : Cell) : string :=
  match c with
  | Text s => s
  | Number n => toString n
  | Null => EmptyString
  end.

Definition newline : string := String "010"%char EmptyString.

Definition headers : list string :=
  ["PID"; "Business Partner"; "End User"; "Category"; "Product"; "PIC";
   "Nett GP"; "Quarter"; "Year"].

Definition csvData (filteredProjects : list Project.t) : list (list Cell) :=
  map (fun p =>
         [ Text (Project.pid p);
           Text (Project.business_partner p);
           Text (Project.end_user p);
           Text (Project.category p);
           Text (or_string (Project.product p) EmptyString);
           match Project.pic p with Some s => Text s | None => Null end;
           Number (Project.nett_gp p);
           Text (Project.quarter p);
           Number (Project.year p) ])
      filteredProjects.

(** What [exportToCSV] does: the error toast, or a download of [csv] under
    [filename]. *)
Inductive ExportResult : Type :=
| NoData
| Download (filename csv : string).

Definition exportToCSV (filteredProjects : list Project.t)
    (year quarter category : string) : ExportResult :=
  if Nat.eqb (List.length filteredProjects) 0 then NoData
  else
    let csv :=
      JsArray.join newline
        (map (fun row => JsArray.join "," (map cellText row))
             (map Text headers :: csvData filteredProjects)) in
    Download ("projects-report-" ++ year ++ "-" ++ quarter ++ "-"
              ++ category ++ ".csv")%string
             csv.

End Reports.

(** ** utils/excel-parser.ts: [parseExcelFile], from the sheet's rows on *)

Module ExcelParser.

(** What the body of the per-row [try] does: [projectSchema.parse] returns
    the project, or throws a [ZodError] carrying its issues' messages, or
    something else is thrown. *)
Inductive Outcome (ProjectData : Type) : Type :=
| Parsed (project : ProjectData)
| ZodError (messages : list string)
| OtherError.
Arguments Parsed {ProjectData} _.
Arguments ZodError {ProjectData} _.
Arguments OtherError {ProjectData}.

Module ParseResult.
Record t (ProjectData : Type) : Type := mk {
  success : bool;
  data : option (list ProjectData);
  errors : option (list string)
}.
Arguments mk {ProjectData} _ _ _.
Arguments success {ProjectData} _.
Arguments data {ProjectData} _.
Arguments errors {ProjectData} _.
End ParseResult.

(** [`Row ${index + 2}: ${text}`] *)
Definition rowLabel (index : nat) (text : string) : string :=
  ("Row " ++ toString (Z.of_nat index + 2) ++ ": " ++ text)%string.

Section Parse.
Context {Row ProjectData : Type}.
  (** The schema library is not part of the repository: the check of one
      row is a parameter. *)
Variable parseRow : Row -> Outcome ProjectData.

  (** The two arrays the loop pushes to. *)
Record Collected : Type := mkCollected {
    errors : list string;
    validProjects : list ProjectData
  }.

Definition onRow (acc : Collected) (row : Row) (index : nat) : Collected :=
    match parseRow row with
    | Parsed project =>
        mkCollected (errors acc) (validProjects acc ++ [project])
    | ZodError messages =>
        mkCollected
          (errors acc ++ [rowLabel index (JsArray.join ", " messages)])
          (validProjects acc)
    | OtherError =>
        mkCollected (errors acc ++ [rowLabel index "Invalid data"])
                    (validProjects acc)
    end.

Definition collect (jsonData : list Row) : Collected :=
    JsArray.forEach_indexed jsonData onRow 0%nat (mkCollected [] []).

Definition parseRows (jsonData : list Row) : ParseResult.t ProjectData :=
    let c := collect jsonData in
    if Nat.ltb 0 (List.length (errors c)) then
      ParseResult.mk false None (Some (errors c))
    else if Nat.eqb (List.length (validProjects c)) 0 then
      ParseResult.mk false None (Some ["No valid data found in Excel file"])
    else
      ParseResult.mk true (Some (validProjects c)) None.
End Parse.

Arguments errors {ProjectData} _.
Arguments validProjects {ProjectData} _.

(** The object literal a row is turned into before it is checked: the text
    fields after their empty-string defaults, the two numbers after
    [parseFloat] / [parseInt] ([None] for [NaN]). *)
Module Candidate.
Record t : Type := mk {
  pid : string;
  business_partner : string;
  end_user : string;
  category : string;
  product : string;
  pic : string;
  nett_gp : option Q;
  quarter : string;
  year : option Z;
  keterangan : string
}.
End Candidate.

Module ProjectData.
Record t : Type := mk {
  pid : string;
  business_partner : string;
  end_user : string;
  category : string;
  product : string;
  pic : string;
  nett_gp : Q;
  quarter : string;
  year : Z;
  keterangan : string
}.
End ProjectData.

Definition minLength (n : nat) (message : string) (s : string) : list string :=
  if Nat.leb n (String.length s) then [] else [message].

Definition oneOf (values : list string) (message : string) (s : string)
    : list string :=
  if existsb (String.eqb s) values then [] else [message].

Definition positive (message : string) (x : option Q) : list string :=
  match x with
  | None => ["Expected number, received nan"]
  | Some q => if Qle_bool q 0 then [message] else []
  end.

Definition yearRange (x : option Z) : list string :=
  match x with
  | None => ["Expected number, received nan"]
  | Some y =>
      (if y <? 2000 then ["Number must be greater than or equal to 2000"] else [])
      ++ (if 2100 <? y then ["Number must be less than or equal to 2100"] else [])
  end.

(** [projectSchema]: the issues of every field, in the order of the schema's
    keys. *)
Definition issues (c : Candidate.t) : list string :=
  minLength 1 "PID is required" (Candidate.pid c)
  ++ minLength 2 "Business Partner is required" (Candidate.business_partner c)
  ++ minLength 2 "End User is required" (Candidate.end_user c)
  ++ oneOf ["Implementation"; "Maintenance"; "LSC"]
       "Category must be Implementation, Maintenance, or LSC"
       (Candidate.category c)
  ++ minLength 2 "PIC is required" (Candidate.pic c)
  ++ positive "Nett GP must be positive" (Candidate.nett_gp c)
  ++ oneOf ["Q1"; "Q2"; "Q3"; "Q4"] "Quarter must be Q1, Q2, Q3, or Q4"
       (Candidate.quarter c)
  ++ yearRange (Candidate.year c).

Definition projectSchema_parse (c : Candidate.t) : Outcome ProjectData.t :=
  match issues c, Candidate.nett_gp c, Candidate.year c with
  | [], Some g, Some y =>
      Parsed (ProjectData.mk (Candidate.pid c) (Candidate.business_partner c)
                (Candidate.end_user c) (Candidate.category c)
                (Candidate.product c) (Candidate.pic c) g
                (Candidate.quarter c) y (Candidate.keterangan c))
  | messages, _, _ => ZodError messages
  end.

End ExcelParser.

(** ** Upload form: what reaches the store *)

Module ExcelUpload.

(** The chosen file, as far as the form looks at it. *)
Record File : Type := mkFile { name : string }.

(** One object of the array handed to the store's [insert]. *)
Module InsertRow.
Record t : Type := mk {
  pid : string;
  business_partner : string;
  end_user : string;
  category : string;
  product : option string;
  pic : string;
  nett_gp : Q;
  quarter : string;
  year : Z;
  keterangan : option string
}.
End InsertRow.

Record State : Type := mkState {
  file : option File;
  errors : list string;
  preview : list ExcelParser.ProjectData.t
}.

(** [s.endsWith(suffix)] *)
Definition endsWith (s suffix : string) : bool :=
  let n := String.length s in
  let m := String.length suffix in
  if Nat.leb m n then String.eqb (String.substring (n - m) m s) suffix
  else false.

(** [handleFileChange] with the file picked (if any) and the result
    [parseExcelFile] resolves to for it.  Without a file, or with a name
    that ends in neither .xlsx nor .xls, nothing changes; else the file is
    kept, both lists are cleared and one of them is filled from the
    result. *)
Definition handleFileChange (st : State) (selectedFile : option File)
    (result : ExcelParser.ParseResult.t ExcelParser.ProjectData.t) : State :=
  match selectedFile with
  | None => st
  | Some selected =>
      if (negb (endsWith (name selected) ".xlsx")
          && negb (endsWith (name selected) ".xls"))%bool
      then st
      else
        match ExcelParser.ParseResult.success result,
              ExcelParser.ParseResult.data result,
              ExcelParser.ParseResult.errors result with
        | true, Some data, _ => mkState (Some selected) [] data
        | _, _, Some errors => mkState (Some selected) errors []
        | _, _, None => mkState (Some selected) [] []
        end
  end.

(** [s || null] *)
Definition orNull (s : string) : option string :=
  if String.eqb s EmptyString then None else Some s.

Definition toInsertRow (project : ExcelParser.ProjectData.t) : InsertRow.t :=
  InsertRow.mk
    (ExcelParser.ProjectData.pid project)
    (ExcelParser.ProjectData.business_partner project)
    (ExcelParser.ProjectData.end_user project)
    (ExcelParser.ProjectData.category project)
    (orNull (ExcelParser.ProjectData.product project))
    (ExcelParser.ProjectData.pic project)
    (ExcelParser.ProjectData.nett_gp project)
    (ExcelParser.ProjectData.quarter project)
    (ExcelParser.ProjectData.year project)
    (orNull (ExcelParser.ProjectData.keterangan project)).

(** [handleUpload]: the array handed to the store's [insert], or [None]
    when the form refuses to upload (no file, or an empty preview). *)
Definition handleUpload (st : State) : option (list InsertRow.t) :=
  match file st with
  | None => None
  | Some _ =>
      if Nat.eqb (List.length (preview st)) 0 then None
      else Some (map toInsertRow (preview st))
  end.

(** The form after [handleUpload], given what the store answered: a
    refused or failed upload leaves it as it was, a successful one clears
    it. *)
Definition afterUpload (st : State) (insertError : option string) : State :=
  match handleUpload st, insertError with
  | Some _, None => mkState None [] []
  | _, _ => st
  end.

End ExcelUpload.

(** ** Migration: [generate_pid] and the [set_project_pid] trigger *)

Module Migration.

(** A [timestamptz], reduced to what [EXTRACT(YEAR FROM _)] and
    [TO_CHAR(_, 'YY')] read and an offset inside the year. *)
Module Timestamp.
Record t : Type := mk { year : Z; offset : Z }.
End Timestamp.

(** The columns of [public.projects] the two functions read or write. *)
Module Row.
Record t : Type := mk { pid : option string; created_at : Timestamp.t }.
End Row.

(** [left(s, n)] *)
Fixpoint left (s : string) (n : nat) : string :=
  match n, s with
  | S n', String c r => String c (left r n')
  | _, _ => EmptyString
  end.

(** The first [n] characters of [rest] followed by [fill] repeated. *)
Fixpoint cycle (n : nat) (rest fill : string) : string :=
  match n with
  | O => EmptyString
  | S n' =>
      match rest with
      | String c r => String c (cycle n' r fill)
      | EmptyString =>
          match fill with
          | String c r => String c (cycle n' r fill)
          | EmptyString => EmptyString
          end
      end
  end.

(** [LPAD(s, len, fill)]: pads on the left up to [len] characters, and cuts
    a longer [s] down to its first [len] characters. *)
Definition LPAD (s : string) (len : nat) (fill : string) : string :=
  if Nat.leb len (String.length s) then left s len
  else (cycle (len - String.length s) fill fill ++ s)%string.

(** [TO_CHAR(ts, 'YY')]: the last two digits of the year. *)
Definition TO_CHAR_YY (ts : Timestamp.t) : string :=
  LPAD (toString (Timestamp.year ts mod 100)) 2 "0".

Definition generate_pid (projects : list Row.t) (now : Timestamp.t) : string :=
  let year_suffix := TO_CHAR_YY now in
  let counter :=
    Z.of_nat
      (List.length
         (filter (fun r => Timestamp.year (Row.created_at r)
                           =? Timestamp.year now) projects)) + 1 in
  let new_pid := ("P" ++ year_suffix ++ LPAD (toString counter) 4 "0")%string in
  new_pid.

Definition set_project_pid (projects : list Row.t) (now : Timestamp.t)
    (NEW : Row.t) : Row.t :=
  match Row.pid NEW with
  | None => Row.mk (Some (generate_pid projects now)) (Row.created_at NEW)
  | Some p =>
      if String.eqb p EmptyString
      then Row.mk (Some (generate_pid projects now)) (Row.created_at NEW)
      else NEW
  end.

(** The [CHECK] constraints of [public.projects]. *)
Definition check_category (category : string) : bool :=
  existsb (String.eqb category) ["Implementation"; "Maintenance"; "LSC"].

Definition check_quarter (quarter : string) : bool :=
  existsb (String.eqb quarter) ["Q1"; "Q2"; "Q3"; "Q4"].

(** The role of the session, for the row-level security policies: the
    one policy for [INSERT] is granted to [authenticated]. *)
Inductive Role : Type :=
| anon
| authenticated.

(** A row as an [INSERT] presents it to [public.projects], the column
    defaults already filled in.  [core] carries [pid] and [created_at], the
    two columns the trigger reads, with [created_at] set (a row without it
    is refused and is left out here); any of the other columns may be
    null. *)
Module ProjectsRow.
Record t : Type := mk {
  id : option string;
  core : Row.t;
  business_partner : option string;
  end_user : option string;
  category : option string;
  product : option string;
  pic : option string;
  pic_percentage : option Q;
  nett_gp : option Z;
  keterangan : option string;
  quarter : option string;
  year : option Z;
  created_by : option string;
  updated_at : option Timestamp.t
}.

Definition with_core (r : t) (c : Row.t) : t :=
  mk (id r) c (business_partner r) (end_user r) (category r) (product r)
     (pic r) (pic_percentage r) (nett_gp r) (keterangan r) (quarter r)
     (year r) (created_by r) (updated_at r).
End ProjectsRow.

Definition notNull {A : Type} (x : option A) : bool :=
  match x with
  | Some _ => true
  | None => false
  end.

(** The ranges of [bigint] and [integer]. *)
Definition in_bigint (n : Z) : bool :=
  (- 2 ^ 63 <=? n) && (n <? 2 ^ 63).

Definition in_integer (n : Z) : bool :=
  (- 2 ^ 31 <=? n) && (n <? 2 ^ 31).

(** [numeric(5,2)]: the value rounded to two decimals (halves away from
    zero) has at most three digits before the point. *)
Definition in_numeric_5_2 (q : Q) : bool :=
  (2 * (Z.abs (Qnum q) * 100) + Z.pos (Qden q)) / (2 * Z.pos (Qden q))
  <? 100000.

(** Is [code] the [pid] of a stored row? *)
Definition pidTaken (rows : list Row.t) (code : string) : bool :=
  existsb (fun r => match Row.pid r with
                    | Some q => String.eqb q code
                    | None => false
                    end) rows.

(** What the table demands of a row: primary key, [NOT NULL], [UNIQUE],
    [CHECK], the column types' ranges and the reference to
    [public.profiles]. *)
Definition constraints (profiles : list string)
    (projects : list ProjectsRow.t) (row : ProjectsRow.t) : bool :=
  match ProjectsRow.id row with
  | Some i =>
      negb (existsb (fun r => match ProjectsRow.id r with
                              | Some j => String.eqb j i
                              | None => false
                              end) projects)
  | None => false
  end
  && match Row.pid (ProjectsRow.core row) with
     | Some p => negb (pidTaken (map ProjectsRow.core projects) p)
     | None => false
     end
  && notNull (ProjectsRow.business_partner row)
  && notNull (ProjectsRow.end_user row)
  && match ProjectsRow.category row with
     | Some c => check_category c
     | None => false
     end
  && notNull (ProjectsRow.pic row)
  && match ProjectsRow.pic_percentage row with
     | Some q => in_numeric_5_2 q
     | None => true
     end
  && match ProjectsRow.nett_gp row with
     | Some n => in_bigint n
     | None => false
     end
  && match ProjectsRow.quarter row with
     | Some q => check_quarter q
     | None => false
     end
  && match ProjectsRow.year row with
     | Some y => in_integer y
     | None => false
     end
  && match ProjectsRow.created_by row with
     | Some u => existsb (String.eqb u) profiles
     | None => true
     end
  && notNull (ProjectsRow.updated_at row).

(** [INSERT INTO public.projects] of one row by a session of [role], with
    the ids of [public.profiles] and the stored projects: the policy
    admits the role, the BEFORE INSERT trigger sets the [pid], the
    constraints decide. *)
Definition insert (role : Role) (profiles : list string)
    (projects : list ProjectsRow.t) (now : Timestamp.t)
    (NEW : ProjectsRow.t) : option (list ProjectsRow.t) :=
  match role with
  | anon => None
  | authenticated =>
      let row :=
        ProjectsRow.with_core NEW
          (set_project_pid (map ProjectsRow.core projects) now
                           (ProjectsRow.core NEW)) in
      if constraints profiles projects row then Some (projects ++ [row])
      else None
  end.

End Migration.

(** ** utils/backup-database.ts *)

Module Backup.

Module ProjectRow.
Record t : Type := mk {
  id : string;
  pid : string;
  business_partner : option string;
  end_user : option string;
  category : string;
  product : option string;
  nett_gp : Z;
  pic : string;
  pic_percentage : option Q;
  quarter : string;
  year : Z;
  keterangan : option string;
  created_by : option string;
  created_at : string;
  updated_at : string
}.
End ProjectRow.

Module TargetRow.
Record t : Type := mk {
  id : string;
  year : Z;
  q1_target : Z;
  q2_target : Z;
  q3_target : Z;
  q4_target : Z;
  yearly_target : Z;
  created_by : option string;
  created_at : string;
  updated_at : string
}.
End TargetRow.

Module ProfileRow.
Record t : Type := mk {
  id : string;
  email : string;
  full_name : option string;
  role : string;
  created_at : string;
  updated_at : string
}.
End ProfileRow.

(** The [{ data, error }] a query resolves to. *)
Record QueryResult (A : Type) : Type := mkQuery {
  data : option (list A);
  error : option string
}.
Arguments mkQuery {A} _ _.
Arguments data {A} _.
Arguments error {A} _.

Record Metadata : Type := mkMetadata {
  totalRecords : Z;
  tables : list string
}.

Record BackupData : Type := mkBackup {
  projects : list ProjectRow.t;
  targets : list TargetRow.t;
  profiles : list ProfileRow.t;
  timestamp : string;
  metadata : Metadata
}.

(** [rows?.length || 0] *)
Definition lengthOrZero {A : Type} (rows : option (list A)) : Z :=
  or_number (option_map (fun l => Z.of_nat (List.length l)) rows) 0.

(** [backupDatabase], from the three query results and the ISO text of the
    current time; [None] is the [null] of the [catch]. *)
Definition backupDatabase (projectsQ : QueryResult ProjectRow.t)
    (targetsQ : QueryResult TargetRow.t)
    (profilesQ : QueryResult ProfileRow.t) (now : string)
    : option BackupData :=
  match error projectsQ with
  | Some _ => None
  | None =>
      match error targetsQ with
      | Some _ => None
      | None =>
          match error profilesQ with
          | Some _ => None
          | None =>
              Some (mkBackup
                      (or_object (data projectsQ) [])
                      (or_object (data targetsQ) [])
                      (or_object (data profilesQ) [])
                      now
                      (mkMetadata
                         (lengthOrZero (data projectsQ)
                          + lengthOrZero (data targetsQ)
                          + lengthOrZero (data profilesQ))
                         ["projects"; "targets"; "profiles"]))
          end
      end
  end.

Definition apostrophe : ascii := "'"%char.

(** [s.replace(/'/g, "''")] with two apostrophes as the replacement. *)
Fixpoint doubleApostrophes (s : string) : string :=
  match s with
  | EmptyString => EmptyString
  | String c r =>
      if Ascii.eqb c apostrophe
      then String apostrophe (String apostrophe (doubleApostrophes r))
      else String c (doubleApostrophes r)
  end.

(** The template [`'${s}'`]. *)
Definition quoted (s : string) : string :=
  (String apostrophe s ++ String apostrophe EmptyString)%string.

(** The template with [x?.replace(/'/g, "''") || ""] inside. *)
Definition escaped (x : option string) : string :=
  quoted (or_string (option_map doubleApostrophes x) EmptyString).

(** [x ? `'${x}'` : "NULL"] *)
Definition quotedOrNull (x : option string) : string :=
  match x with
  | Some s => if String.eqb s EmptyString then "NULL" else quoted s
  | None => "NULL"
  end.

Definition nl : string := String "010"%char EmptyString.

Section SqlScript.
(** [String(x)] of a number that need not be an integer. *)
Variable numberText : Q -> string.

(** The [values] array of a project, each element as [join] renders it. *)
Definition projectValues (project : ProjectRow.t) : list string :=
  [ quoted (ProjectRow.id project);
    quoted (ProjectRow.pid project);
    escaped (ProjectRow.business_partner project);
    escaped (ProjectRow.end_user project);
    quoted (ProjectRow.category project);
    escaped (ProjectRow.product project);
    toString (ProjectRow.nett_gp project);
    quoted (ProjectRow.pic project);
    match ProjectRow.pic_percentage project with
    | Some q => numberText q
    | None => EmptyString
    end;
    quoted (ProjectRow.quarter project);
    toString (ProjectRow.year project);
    escaped (ProjectRow.keterangan project);
    quotedOrNull (ProjectRow.created_by project);
    quoted (ProjectRow.created_at project);
    quoted (ProjectRow.updated_at project) ].

Definition targetValues (target : TargetRow.t) : list string :=
  [ quoted (TargetRow.id target);
    toString (TargetRow.year target);
    toString (TargetRow.q1_target target);
    toString (TargetRow.q2_target target);
    toString (TargetRow.q3_target target);
    toString (TargetRow.q4_target target);
    toString (TargetRow.yearly_target target);
    quotedOrNull (TargetRow.created_by target);
    quoted (TargetRow.created_at target);
    quoted (TargetRow.updated_at target) ].

Definition profileValues (profile : ProfileRow.t) : list string :=
  [ quoted (ProfileRow.id profile);
    quoted (ProfileRow.email profile);
    escaped (ProfileRow.full_name profile);
    quoted (ProfileRow.role profile);
    quoted (ProfileRow.created_at profile);
    quoted (ProfileRow.updated_at profile) ].

(** One table's part of the script: nothing for an empty table, else the
    comment line and one [INSERT] per row. *)
Definition tableSection {A : Type} (sql : string) (title : string)
    (insertInto : string) (values : A -> list string) (rows : list A)
    : string :=
  if Nat.ltb 0 (List.length rows) then
    JsArray.forEach rows
      (fun sql row =>
         (sql ++ insertInto ++ " VALUES ("
              ++ JsArray.join ", " (values row) ++ ");" ++ nl)%string)
      (sql ++ nl ++ "-- " ++ title ++ " Table ("
           ++ toString (Z.of_nat (List.length rows)) ++ " records)"
           ++ nl)%string
  else sql.

Definition exportToSQL (backupData : BackupData) : string :=
  let sql :=
    ("-- Database Backup" ++ nl
     ++ "-- Generated: " ++ timestamp backupData ++ nl
     ++ "-- Total Records: "
     ++ toString (totalRecords (metadata backupData)) ++ nl ++ nl)%string in
  let sql :=
    tableSection sql "Projects"
      "INSERT INTO public.projects (id, pid, business_partner, end_user, category, product, nett_gp, pic, pic_percentage, quarter, year, keterangan, created_by, created_at, updated_at)"
      projectValues (projects backupData) in
  let sql :=
    tableSection sql "Targets"
      "INSERT INTO public.targets (id, year, q1_target, q2_target, q3_target, q4_target, yearly_target, created_by, created_at, updated_at)"
      targetValues (targets backupData) in
  let sql :=
    tableSection sql "Profiles"
      "INSERT INTO public.profiles (id, email, full_name, role, created_at, updated_at)"
      profileValues (profiles backupData) in
  sql.
End SqlScript.

End Backup.

(** ** Sample data *)

Module Sample.

Definition project (category : string) (product pic : option string)
    (nett_gp : Z) (quarter : string) : Project.t :=
  Project.mk "P250001" "Example Corp" "ABC Company" category product pic
             nett_gp quarter 2025.

(** The two records of the specification's worked example. *)
Definition two : list Project.t :=
  [ project "Implementation" (Some "NetApp") (Some "Xena") 100 "Q1";
    project "Maintenance" (Some "NetApp") (Some "Yuri") 200 "Q1" ].

Definition target200 : Target.t := Target.mk 2025 200 0 0 0 200.

(** A year of mixed records: seven products, one record without product and
    one with an empty product, one record with an empty PIC. *)
Definition mixed : list Project.t :=
  [ project "Implementation" (Some "NetApp") (Some "Xena") 100 "Q1";
    project "Maintenance" (Some "Cisco") (Some "Yuri") 200 "Q2";
    project "LSC" None (Some "Xena") 50 "Q3";
    project "LSC" (Some EmptyString) (Some "Zed") 70 "Q4";
    project "Implementation" (Some "Dell") (Some EmptyString) 300 "Q1";
    project "Maintenance" (Some "HPE") (Some "Yuri") 10 "Q2";
    project "Maintenance" (Some "Veeam") (Some "Walt") 20 "Q2";
    project "Implementation" (Some "Nutanix") (Some "Vera") 30 "Q3";
    project "Implementation" (Some "Cisco") (Some "Xena") 40 "Q4";
    project "Implementation" (Some "Fortinet") (Some "Uma") 5 "Q4" ].

(** One record with an empty PIC and one without a PIC. *)
Definition blankPics : list Project.t :=
  [ project "LSC" (Some "NetApp") (Some EmptyString) 100 "Q1";
    project "LSC" (Some "NetApp") None 200 "Q1" ].

(** The same for the product. *)
Definition blankProducts : list Project.t :=
  [ project "LSC" (Some EmptyString) (Some "Xena") 100 "Q1";
    project "LSC" None (Some "Xena") 200 "Q1" ].

(** The entry of the product "Cisco" in the leaderboard of [mixed]. *)
Definition ciscoEntry : TopProducts.ProductRanking.t :=
  TopProducts.ProductRanking.mk "Cisco" 240 2
    [ TopProducts.PicBreakdown.mk (Some "Yuri") 200;
      TopProducts.PicBreakdown.mk (Some "Xena") 40 ].

Definition candidate (pid category : string) (nett_gp : option Q)
    (quarter : string) (year : option Z) : ExcelParser.Candidate.t :=
  ExcelParser.Candidate.mk pid "Example Corp" "ABC Company" category "NetApp"
    "John Doe" nett_gp quarter year EmptyString.

(** A file the form accepts by its name. *)
Definition workbook : ExcelUpload.File := ExcelUpload.mkFile "projects.xlsx".

Definition goodRow : ExcelParser.Candidate.t :=
  candidate "P250001" "Implementation" (Some (inject_Z 50000000)) "Q1"
            (Some 2025).

Definition badRow : ExcelParser.Candidate.t :=
  candidate EmptyString "Sales" (Some (inject_Z 0)) "Q5" (Some 1999).

Definition sheetGood : list ExcelParser.Candidate.t := [goodRow; goodRow].
Definition sheetMixed : list ExcelParser.Candidate.t :=
  [goodRow; badRow; goodRow; badRow].

Definition now2025 : Migration.Timestamp.t := Migration.Timestamp.mk 2025 0.

(** [n] stored rows created in [year], with distinct codes. *)
Definition stored (n : Z) (year : Z) : list Migration.Row.t :=
  map (fun i => Migration.Row.mk (Some (toString (Z.of_nat i)))
                                 (Migration.Timestamp.mk year (Z.of_nat i)))
      (seq 0 (Z.to_nat n)).

(** Rows of a backup; the business partner and the PIC hold an
    apostrophe. *)
Definition backupProject : Backup.ProjectRow.t :=
  Backup.ProjectRow.mk "7f3c" "P250001" (Some "O'Neil & Co") (Some "ABC")
    "LSC" None 100 "D'Arcy" (Some (inject_Z 15)) "Q1" 2025 None None
    "2025-01-05T08:00:00+00:00" "2025-01-05T08:00:00+00:00".

Definition backupProfile : Backup.ProfileRow.t :=
  Backup.ProfileRow.mk "91aa" "siti@example.com" (Some "Siti") "admin"
    "2025-01-01T00:00:00+00:00" "2025-01-01T00:00:00+00:00".

(** [String(x)] on whole numbers. *)
Definition wholeText (q : Q) : string := toString (Qnum q).

(** Full rows of the projects table around [stored], with their codes as
    ids, and a row to insert without a code. *)
Definition fullRow (id : option string) (core : Migration.Row.t)
    : Migration.ProjectsRow.t :=
  Migration.ProjectsRow.mk id core (Some "Example Corp") (Some "ABC Company")
    (Some "Implementation") None (Some "John Doe") (Some (inject_Z 15))
    (Some 50000000) None (Some "Q1") (Some 2025) None
    (Some (Migration.Row.created_at core)).

Definition storedRows (n : Z) (year : Z) : list Migration.ProjectsRow.t :=
  map (fun core => fullRow (Migration.Row.pid core) core) (stored n year).

Definition newRow : Migration.ProjectsRow.t :=
  fullRow (Some "5b1e") (Migration.Row.mk None now2025).

End Sample.

(** The sum of a list of amounts, for stating what the loops compute. *)
Definition sumZ (l : list Z) : Z := fold_right Z.add 0 l.

(** The grouping loop all the maps of the pages are instances of: every
    element replaces the entry of its key by [upd] of the previous entry. *)
Section GroupLoop.
Context {A K V : Type}.
Variable K_eq_dec : forall a b : K, {a = b} + {a <> b}.
Variable keyOf : A -> K.
Variable upd : option V -> A -> V.

Definition groupStep (m : list (K * V)) (x : A) : list (K * V) :=
    JsMap.set K_eq_dec m (keyOf x) (upd (JsMap.get K_eq_dec m (keyOf x)) x).

Definition groupFrom (m : list (K * V)) (l : list A) : list (K * V) :=
    fold_left groupStep l m.

  (** The elements of [l] whose key is [k], in order. *)
Definition withKey (k : K) (l : list A) : list A :=
    filter (fun x => if K_eq_dec (keyOf x) k then true else false) l.
End GroupLoop.

(** The comparator of every ranking, [(a, b) => score(b) - score(a)], and
    the order it sorts into. *)
Section Descending.
Context {A : Type}.
Variable score : A -> Z.

Definition byScoreDesc (a b : A) : Z := score b - score a.
Definition descending (a b : A) : Prop := score a >= score b.
End Descending.

(** The grouping keys and the entry updates of the pages' loops. *)
Definition picName (project : Project.t) : string :=
  or_string (Project.pic project) "N/A".

Definition productName (project : Project.t) : string :=
  or_string (Project.product project) "N/A".

(** [(map.get(key) || 0) + Number(p.nett_gp)] *)
Definition sumUpd (current : option Z) (p : Project.t) : Z :=
  or_number current 0 + Project.nett_gp p.

(** [{ total: current.total + Number(p.nett_gp), count: current.count + 1 }]
    with [current = map.get(key) || { total: 0, count: 0 }] *)
Definition accUpd (current : option Acc.t) (p : Project.t) : Acc.t :=
  let current := or_object current Acc.zero in
  Acc.mk (Acc.total current + Project.nett_gp p) (Acc.count current + 1).

(** The same with the per-PIC map of the product leaderboard. *)
Definition productUpd (current : option TopProducts.ProductAcc.t)
    (project : Project.t) : TopProducts.ProductAcc.t :=
  let current := or_object current TopProducts.ProductAcc.zero in
  TopProducts.ProductAcc.mk
    (TopProducts.ProductAcc.total current + Project.nett_gp project)
    (TopProducts.ProductAcc.count current + 1)
    (groupStep option_string_dec Project.pic sumUpd
               (TopProducts.ProductAcc.pics current) project).

(** The per-PIC incomes of a list of records: the inner loop of the product
    leaderboard run on those records alone. *)
Definition picIncomes (projects : list Project.t)
    : list (option string * Z) :=
  groupFrom option_string_dec Project.pic sumUpd [] projects.

(** The three-field ranking of a key function: group, convert, sort, keep
    the first five. *)
Section RankingOf.
Context {K : Type}.
Variable K_eq_dec : forall a b : K, {a = b} + {a <> b}.
Variable keyOf : Project.t -> K.

Definition accMap (projects : list Project.t) : list (K * Acc.t) :=
  groupFrom K_eq_dec keyOf accUpd [] projects.

Definition toRanking (e : K * Acc.t) : Ranking.t K :=
  Ranking.mk (fst e) (Acc.total (snd e)) (Acc.count (snd e)).

(** The sorted array before [slice(0, 5)] cuts it. *)
Definition rankedAll (projects : list Project.t) : list (Ranking.t K) :=
  JsArray.sort (byScoreDesc Ranking.totalIncome)
    (map toRanking (accMap projects)).

Definition rankingOf (projects : list Project.t) : list (Ranking.t K) :=
  JsArray.slice 0 5 (rankedAll projects).

(** The number of distinct keys among the records. *)
Definition distinctKeys (projects : list Project.t) : nat :=
  List.length (nodup K_eq_dec (map keyOf projects)).
End RankingOf.

(** The product leaderboard's sorted array before [slice(0, 5)] cuts it. *)
Definition productRankedAll (projects : list Project.t)
    : list TopProducts.ProductRanking.t :=
  JsArray.sort TopProducts.byTotalIncomeDesc
    (map (fun '(product, data) =>
            TopProducts.ProductRanking.mk product
              (TopProducts.ProductAcc.total data)
              (TopProducts.ProductAcc.count data)
              (TopProducts.picsArray (TopProducts.ProductAcc.pics data)))
         (JsMap.entries (TopProducts.productMap projects))).

(** Neighbours of an output list are in descending order of [score]. *)
Definition adjacentDesc {A : Type} (score : A -> Z) (l : list A) : Prop :=
  forall (i : nat) (a b : A),
    nth_error l i = Some a -> nth_error l (S i) = Some b ->
    score a >= score b.

(** The report filter written as one predicate on a record. *)
Definition selected (year : Z) (quarter category : string) (p : Project.t)
    : bool :=
  (Project.year p =? year)
  && (String.eqb quarter "all" || String.eqb (Project.quarter p) quarter)
  && (String.eqb category "all" || String.eqb (Project.category p) category).

(** The rows of a sheet with their indices. *)
Definition indexed {Row : Type} (jsonData : list Row) : list (nat * Row) :=
  combine (seq 0 (List.length jsonData)) jsonData.

Definition isParsed {P : Type} (o : ExcelParser.Outcome P) : bool :=
  match o with
  | ExcelParser.Parsed _ => true
  | _ => false
  end.

(** The text after the row label of a rejected row. *)
Definition errorText {P : Type} (o : ExcelParser.Outcome P) : string :=
  match o with
  | ExcelParser.ZodError messages => JsArray.join ", " messages
  | _ => "Invalid data"
  end.

(** The rejected rows of a sheet with their indices, the message of one,
    and the projects of the accepted rows. *)
Section Rejected.
Context {Row P : Type}.
Variable parseRow : Row -> ExcelParser.Outcome P.

Definition isRejected (ir : nat * Row) : bool :=
  negb (isParsed (parseRow (snd ir))).

Definition rejected (jsonData : list Row) : list (nat * Row) :=
  filter isRejected (indexed jsonData).

Definition rowError (ir : nat * Row) : string :=
  ExcelParser.rowLabel (fst ir) (errorText (parseRow (snd ir))).

Definition accepted (jsonData : list Row) : list P :=
  flat_map (fun row => match parseRow row with
                       | ExcelParser.Parsed project => [project]
                       | _ => []
                       end) jsonData.
End Rejected.

(** A number written in decimal with zeros in front up to [width]
    characters, never cut. *)
Definition zeroPadded (width : nat) (n : Z) : string :=
  (Migration.cycle (width - String.length (toString n)) "0" "0"
   ++ toString n)%string.

(** The number of projects created in the year of [now]. *)
Definition createdInYear (projects : list Migration.Row.t)
    (now : Migration.Timestamp.t) : Z :=
  Z.of_nat
    (List.length
       (filter (fun r => Migration.Timestamp.year (Migration.Row.created_at r)
                         =? Migration.Timestamp.year now) projects)).

(** ** Vocabulary of the further properties *)

(** The three fields an entry of the product leaderboard shares with the
    dashboard's product ranking. *)
Definition summaryOf (e : TopProducts.ProductRanking.t) : Ranking.t string :=
  Ranking.mk (TopProducts.ProductRanking.product e)
             (TopProducts.ProductRanking.totalIncome e)
             (TopProducts.ProductRanking.projectCount e).

(** A PIC entry of the dashboard read as an entry of the PIC leaderboard. *)
Definition asLeaderboardEntry (e : Ranking.t string)
    : Ranking.t (option string) :=
  Ranking.mk (Some (Ranking.key e)) (Ranking.totalIncome e)
             (Ranking.projectCount e).

(** The record carries a PIC that is not the empty string. *)
Definition hasPic (p : Project.t) : bool :=
  match Project.pic p with
  | Some s => negb (String.eqb s EmptyString)
  | None => false
  end.

(** The rows the dashboard's query [.eq("year", year)] selects. *)
Definition ofYear (year : Z) (store : list Project.t) : list Project.t :=
  filter (fun p => Project.year p =? year) store.

(** The number of occurrences of a character. *)
Fixpoint countChar (c : ascii) (s : string) : nat :=
  match s with
  | EmptyString => O
  | String a r => ((if Ascii.eqb a c then 1 else 0) + countChar c r)%nat
  end.

(** [s.split(sep)] for a one-character separator. *)
Fixpoint splitOn (sep : ascii) (s : string) : list string :=
  match s with
  | EmptyString => [EmptyString]
  | String c r =>
      if Ascii.eqb c sep then EmptyString :: splitOn sep r
      else match splitOn sep r with
           | w :: ws => String c w :: ws
           | [] => [String c EmptyString]
           end
  end.

(** The text of an optional field. *)
Definition textOf (x : option string) : string :=
  match x with
  | Some s => s
  | None => EmptyString
  end.

(** The texts of a record that the CSV export writes as they are. *)
Definition csvTexts (p : Project.t) : list string :=
  [ Project.pid p; Project.business_partner p; Project.end_user p;
    Project.category p; textOf (Project.product p); textOf (Project.pic p);
    Project.quarter p ].

(** Reading a string constant of SQL after its opening apostrophe: a
    doubled apostrophe stands for one, a single one ends the constant.
    [saw] tells that the previous character was an apostrophe still to be
    decided.  The result is the value and the text left over. *)
Fixpoint literalBody (saw : bool) (s : string) : option (string * string) :=
  match s with
  | EmptyString => if saw then Some (EmptyString, EmptyString) else None
  | String c r =>
      if saw then
        if Ascii.eqb c Backup.apostrophe
        then option_map (fun vr => (String Backup.apostrophe (fst vr), snd vr))
                        (literalBody false r)
        else Some (EmptyString, s)
      else
        if Ascii.eqb c Backup.apostrophe then literalBody true r
        else option_map (fun vr => (String c (fst vr), snd vr))
                        (literalBody false r)
  end.

Definition readLiteral (s : string) : option (string * string) :=
  match s with
  | String c r =>
      if Ascii.eqb c Backup.apostrophe then literalBody false r else None
  | EmptyString => None
  end.

(* ================================================================== *)
(** * Part II: properties *)
(* ================================================================== *)

(** ** Sums *)

Lemma fold_left_add_shift {A : Type} (f : A -> Z) (l : list A) (a : Z) :
  fold_left (fun sum p => sum + f p) l a = a + sumZ (map f l).
Proof.
  revert a; induction l as [|x l IH]; intros a; simpl.
  - lia.
  - rewrite IH. lia.
Qed.

Lemma sumNettGp_sumZ (projects : list Project.t) :
  sumNettGp projects = sumZ (map Project.nett_gp projects).
Proof.
  unfold sumNettGp, JsArray.reduce. rewrite fold_left_add_shift. lia.
Qed.

Lemma sumZ_cons (x : Z) (l : list Z) : sumZ (x :: l) = x + sumZ l.
Proof. reflexivity. Qed.

Lemma sumZ_app (l1 l2 : list Z) : sumZ (l1 ++ l2) = sumZ l1 + sumZ l2.
Proof.
  induction l1 as [|x l1 IH]; simpl; [reflexivity | rewrite IH; lia].
Qed.

Lemma sumZ_perm (l1 l2 : list Z) : Permutation l1 l2 -> sumZ l1 = sumZ l2.
Proof.
  induction 1; simpl; lia.
Qed.

Lemma sumZ_ones {A : Type} (l : list A) :
  sumZ (map (fun _ => 1) l) = Z.of_nat (List.length l).
Proof.
  induction l as [|x l IH]; [reflexivity |].
  change (1 + sumZ (map (fun _ : A => 1) l) = Z.of_nat (S (List.length l))).
  rewrite IH. lia.
Qed.

(** ** The insertion-ordered map *)

Section JsMapFacts.
Context {K V : Type}.
Variable K_eq_dec : forall a b : K, {a = b} + {a <> b}.

Local Abbreviation get := (JsMap.get K_eq_dec).
Local Abbreviation put := (JsMap.set K_eq_dec).

Lemma get_set (m : list (K * V)) (k k' : K) (v : V) :
    get (put m k v) k' = if K_eq_dec k k' then Some v else get m k'.
Proof.
    induction m as [|[k0 v0] m IH]; simpl.
    - reflexivity.
    - destruct (K_eq_dec k0 k) as [E|N]; simpl.
      + subst k0. destruct (K_eq_dec k k'); reflexivity.
      + destruct (K_eq_dec k0 k') as [E'|N'].
        * subst k0. destruct (K_eq_dec k k'); [congruence | reflexivity].
        * apply IH.
Qed.

Lemma keys_set (m : list (K * V)) (k k' : K) (v : V) :
    In k' (map fst (put m k v)) <-> k' = k \/ In k' (map fst m).
Proof.
    induction m as [|[k0 v0] m IH]; simpl.
    - intuition congruence.
    - destruct (K_eq_dec k0 k) as [E|N]; simpl.
      + subst k0. intuition congruence.
      + rewrite IH. intuition congruence.
Qed.

Lemma NoDup_set (m : list (K * V)) (k : K) (v : V) :
    NoDup (map fst m) -> NoDup (map fst (put m k v)).
Proof.
    induction m as [|[k0 v0] m IH]; simpl; intros H.
    - constructor; [intros [] | constructor].
    - inversion H as [|? ? Hnotin Hnd]; subst.
      destruct (K_eq_dec k0 k) as [E|N]; simpl.
      + subst k0. constructor; assumption.
      + constructor.
        * rewrite keys_set. intros [E|Hin]; [congruence | contradiction].
        * apply IH; assumption.
Qed.

Lemma get_None (m : list (K * V)) (k : K) :
    get m k = None <-> ~ In k (map fst m).
Proof.
    induction m as [|[k0 v0] m IH]; simpl.
    - intuition.
    - destruct (K_eq_dec k0 k) as [E|N].
      + split; [discriminate | intros H; exfalso; apply H; left; exact E].
      + rewrite IH. intuition.
Qed.

Lemma get_In (m : list (K * V)) (k : K) (v : V) :
    NoDup (map fst m) -> In (k, v) m -> get m k = Some v.
Proof.
    induction m as [|[k0 v0] m IH]; simpl; intros Hnd Hin.
    - contradiction.
    - inversion Hnd as [|? ? Hnotin Hnd']; subst.
      destruct Hin as [E|Hin].
      + inversion E; subst. destruct (K_eq_dec k k); congruence.
      + destruct (K_eq_dec k0 k) as [E|N].
        * subst k0. exfalso. apply Hnotin.
          change k with (fst (k, v)). apply in_map. exact Hin.
        * apply IH; assumption.
Qed.

Lemma In_get (m : list (K * V)) (k : K) (v : V) :
    get m k = Some v -> In (k, v) m.
Proof.
    induction m as [|[k0 v0] m IH]; simpl; intros H.
    - discriminate.
    - destruct (K_eq_dec k0 k) as [E|N].
      + left. congruence.
      + right. apply IH. exact H.
Qed.

  (** Replacing an entry moves a weighted sum of the values by the
      difference of the weights. *)
Lemma sum_set (mu : V -> Z) (m : list (K * V)) (k : K) (v : V) :
    sumZ (map (fun e => mu (snd e)) (put m k v))
    = sumZ (map (fun e => mu (snd e)) m)
      - match get m k with Some o => mu o | None => 0 end
      + mu v.
Proof.
    induction m as [|[k0 v0] m IH]; simpl.
    - lia.
    - destruct (K_eq_dec k0 k) as [E|N]; simpl.
      + lia.
      + rewrite IH. lia.
Qed.
End JsMapFacts.

(** ** The grouping loop *)

Section GroupLoopFacts.
Context {A K V : Type}.
Variable K_eq_dec : forall a b : K, {a = b} + {a <> b}.
Variable keyOf : A -> K.
Variable upd : option V -> A -> V.

Local Abbreviation group := (groupFrom K_eq_dec keyOf upd).
Local Abbreviation keyed := (withKey K_eq_dec keyOf).

Lemma group_cons (x : A) (l : list A) (m : list (K * V)) :
  group m (x :: l)
  = group (JsMap.set K_eq_dec m (keyOf x)
             (upd (JsMap.get K_eq_dec m (keyOf x)) x)) l.
Proof. reflexivity. Qed.

Lemma group_keys (l : list A) (m : list (K * V)) (k : K) :
  In k (map fst (group m l)) <-> In k (map fst m) \/ In k (map keyOf l).
Proof.
  revert m; induction l as [|x l IH]; intros m.
  - simpl. intuition.
  - rewrite group_cons, IH, keys_set. simpl. intuition.
Qed.

Lemma group_NoDup (l : list A) (m : list (K * V)) :
  NoDup (map fst m) -> NoDup (map fst (group m l)).
Proof.
  revert m; induction l as [|x l IH]; intros m H.
  - exact H.
  - rewrite group_cons. apply IH. apply NoDup_set. exact H.
Qed.

(** The entry of a key only depends on the elements with that key. *)
Lemma group_get (l : list A) (m : list (K * V)) (k : K) :
  JsMap.get K_eq_dec (group m l) k
  = fold_left (fun o x => Some (upd o x)) (keyed k l)
              (JsMap.get K_eq_dec m k).
Proof.
  revert m; induction l as [|x l IH]; intros m.
  - reflexivity.
  - rewrite group_cons, IH, get_set. unfold withKey. simpl.
    destruct (K_eq_dec (keyOf x) k) as [E|N]; simpl.
    + rewrite E. reflexivity.
    + reflexivity.
Qed.

(** The number of entries is the number of distinct keys. *)
Lemma group_length (l : list A) :
  List.length (group [] l) = List.length (nodup K_eq_dec (map keyOf l)).
Proof.
  rewrite <- (length_map fst (group [] l)).
  apply Permutation_length. apply NoDup_Permutation.
  - apply group_NoDup. constructor.
  - apply NoDup_nodup.
  - intros k. rewrite group_keys, nodup_In. simpl. intuition.
Qed.

(** A weight [mu] of the values that every step raises by [w] of the
    element sums, over the entries, to the sum of [w]. *)
Lemma group_sum (mu : V -> Z) (w : A -> Z)
    (Hupd : forall o x,
        mu (upd o x) = match o with Some v => mu v | None => 0 end + w x)
    (l : list A) (m : list (K * V)) :
  sumZ (map (fun e => mu (snd e)) (group m l))
  = sumZ (map (fun e => mu (snd e)) m) + sumZ (map w l).
Proof.
  revert m; induction l as [|x l IH]; intros m.
  - simpl. lia.
  - rewrite group_cons, IH, sum_set, Hupd. simpl. lia.
Qed.

Lemma keyed_In (k : K) (l : list A) (x : A) :
  In x (keyed k l) <-> In x l /\ keyOf x = k.
Proof.
  unfold withKey. rewrite filter_In.
  destruct (K_eq_dec (keyOf x) k); intuition congruence.
Qed.

Lemma keyed_nonempty (k : K) (l : list A) :
  In k (map keyOf l) -> keyed k l <> [].
Proof.
  rewrite in_map_iff. intros [x [E Hin]] Hnil.
  assert (H : In x (keyed k l)) by (apply keyed_In; auto).
  rewrite Hnil in H. exact H.
Qed.
End GroupLoopFacts.

(** ** Sorting by a descending score, and the top-five slice *)

Section SortFacts.
Context {A : Type}.
Variable score : A -> Z.

Local Abbreviation byScoreDesc := (byScoreDesc score).
Local Abbreviation descending := (descending score).
Local Abbreviation sorted := (JsArray.sort byScoreDesc).

Lemma insert_perm (x : A) (l : list A) :
  Permutation (JsArray.insert byScoreDesc x l) (x :: l).
Proof.
  induction l as [|y l IH]; simpl.
  - apply Permutation_refl.
  - destruct (byScoreDesc x y <=? 0).
    + apply Permutation_refl.
    + eapply perm_trans; [apply perm_skip, IH | apply perm_swap].
Qed.

Lemma sort_perm (l : list A) : Permutation (sorted l) l.
Proof.
  induction l as [|x l IH]; simpl.
  - constructor.
  - eapply perm_trans; [apply insert_perm | apply perm_skip, IH].
Qed.

Lemma sort_length (l : list A) : List.length (sorted l) = List.length l.
Proof. apply Permutation_length, sort_perm. Qed.

Lemma sort_In (l : list A) (x : A) : In x (sorted l) <-> In x l.
Proof.
  split; apply Permutation_in; [|apply Permutation_sym]; apply sort_perm.
Qed.

Lemma insert_sorted (x : A) (l : list A) :
  StronglySorted descending l ->
  StronglySorted descending (JsArray.insert byScoreDesc x l).
Proof.
  induction 1 as [|y l Hs IH Hall]; simpl.
  - constructor; constructor.
  - destruct (Z.leb_spec (byScoreDesc x y) 0) as [Hle|Hgt];
      unfold byScoreDesc in *.
    + constructor.
      * constructor; assumption.
      * constructor.
        -- unfold descending. lia.
        -- eapply Forall_impl; [|exact Hall].
           unfold descending. intros z Hz. lia.
    + constructor.
      * exact IH.
      * apply Forall_forall. intros z Hz.
        apply (Permutation_in _ (insert_perm x l)) in Hz.
        destruct Hz as [E|Hz].
        -- subst z. unfold descending. lia.
        -- rewrite Forall_forall in Hall. apply Hall. exact Hz.
Qed.

Lemma sort_sorted (l : list A) : StronglySorted descending (sorted l).
Proof.
  induction l as [|x l IH]; simpl.
  - constructor.
  - apply insert_sorted. exact IH.
Qed.

Lemma firstn_In (n : nat) (l : list A) (x : A) :
  In x (firstn n l) -> In x l.
Proof.
  intros H. rewrite <- (firstn_skipn n l). apply in_or_app. left. exact H.
Qed.

Lemma firstn_sorted (R : A -> A -> Prop) (n : nat) (l : list A) :
  StronglySorted R l -> StronglySorted R (firstn n l).
Proof.
  revert l; induction n as [|n IH]; intros l H; simpl.
  - constructor.
  - destruct H as [|x l Hs Hall]; constructor.
    + apply IH. exact Hs.
    + apply Forall_forall. intros y Hy.
      rewrite Forall_forall in Hall. apply Hall.
      eapply firstn_In. exact Hy.
Qed.

Lemma slice_top (n : nat) (l : list A) : JsArray.slice 0 n l = firstn n l.
Proof. unfold JsArray.slice. rewrite Nat.sub_0_r. reflexivity. Qed.

Lemma slice_In (n : nat) (l : list A) (x : A) :
  In x (JsArray.slice 0 n l) -> In x l.
Proof. rewrite slice_top. apply firstn_In. Qed.

(** In a strongly sorted list neighbours are related. *)
Lemma sorted_adjacent (R : A -> A -> Prop) (l : list A) :
  StronglySorted R l ->
  forall (i : nat) (a b : A),
    nth_error l i = Some a -> nth_error l (S i) = Some b -> R a b.
Proof.
  induction 1 as [|x l Hs IH Hall]; intros i a b Ha Hb.
  - destruct i; discriminate.
  - destruct i as [|i].
    + simpl in Ha. inversion Ha; subst.
      rewrite Forall_forall in Hall. apply Hall.
      apply (nth_error_In l 0). exact Hb.
    + eapply IH; [exact Ha | exact Hb].
Qed.

(** The ranking pipeline [sort] then [slice(0, 5)], for any entries. *)
Lemma top_length (n : nat) (l : list A) :
  List.length (JsArray.slice 0 n (sorted l)) = Nat.min n (List.length l).
Proof.
  rewrite slice_top, length_firstn, sort_length. reflexivity.
Qed.

Lemma top_sorted (n : nat) (l : list A) :
  StronglySorted descending (JsArray.slice 0 n (sorted l)).
Proof.
  rewrite slice_top. apply firstn_sorted, sort_sorted.
Qed.

Lemma top_In (n : nat) (l : list A) (x : A) :
  In x (JsArray.slice 0 n (sorted l)) -> In x l.
Proof.
  intros H. apply sort_In. eapply slice_In. exact H.
Qed.
End SortFacts.

(** ** The pages' loops are instances of the grouping loop *)

Lemma categoryMap_group (projects : list Project.t) :
  Dashboard.categoryMap projects
  = groupFrom string_dec Project.category sumUpd [] projects.
Proof. reflexivity. Qed.

Lemma picMap_group (projects : list Project.t) :
  Dashboard.picMap projects = accMap string_dec picName projects.
Proof. reflexivity. Qed.

Lemma productMap_group (projects : list Project.t) :
  Dashboard.productMap projects = accMap string_dec productName projects.
Proof. reflexivity. Qed.

Lemma topPicsArray_ranking (projects : list Project.t) :
  Dashboard.topPicsArray projects = rankingOf string_dec picName projects.
Proof.
  unfold Dashboard.topPicsArray, rankingOf, rankedAll, JsMap.entries.
  rewrite picMap_group. do 2 f_equal.
  apply map_ext. intros [k a]. reflexivity.
Qed.

Lemma topProductsArray_ranking (projects : list Project.t) :
  Dashboard.topProductsArray projects
  = rankingOf string_dec productName projects.
Proof.
  unfold Dashboard.topProductsArray, rankingOf, rankedAll, JsMap.entries.
  rewrite productMap_group. do 2 f_equal.
  apply map_ext. intros [k a]. reflexivity.
Qed.

Lemma TopPics_picMap_group (projects : list Project.t) :
  TopPics.picMap projects = accMap option_string_dec Project.pic projects.
Proof. reflexivity. Qed.

Lemma TopPics_ranking (projects : list Project.t) :
  TopPics.fetchRankings projects
  = rankingOf option_string_dec Project.pic projects.
Proof.
  unfold TopPics.fetchRankings, TopPics.rankingsArray, rankingOf, rankedAll,
    JsMap.entries.
  rewrite TopPics_picMap_group. do 2 f_equal.
  apply map_ext. intros [k a]. reflexivity.
Qed.

Lemma TopProducts_productMap_group (projects : list Project.t) :
  TopProducts.productMap projects
  = groupFrom string_dec productName productUpd [] projects.
Proof. reflexivity. Qed.

(** ** Entry updates *)

Lemma or_number_zero (o : option Z) :
  or_number o 0 = match o with Some v => v | None => 0 end.
Proof.
  destruct o as [v|]; simpl; [|reflexivity].
  destruct (Z.eqb_spec v 0); congruence.
Qed.

Lemma sumUpd_weight (o : option Z) (p : Project.t) :
  sumUpd o p = match o with Some v => v | None => 0 end + Project.nett_gp p.
Proof. unfold sumUpd. rewrite or_number_zero. reflexivity. Qed.

Lemma sumUpd_fold (ps : list Project.t) (o : option Z) :
  fold_left (fun o x => Some (sumUpd o x)) ps o
  = match ps with
    | [] => o
    | _ => Some (or_number o 0 + sumZ (map Project.nett_gp ps))
    end.
Proof.
  revert o; induction ps as [|p ps IH]; intros o.
  - reflexivity.
  - simpl fold_left. rewrite IH. destruct ps as [|q ps].
    + unfold sumUpd. simpl. f_equal. lia.
    + f_equal. rewrite (or_number_zero (Some _)). unfold sumUpd.
      rewrite (map_cons Project.nett_gp p), sumZ_cons. lia.
Qed.

Lemma accUpd_fold (ps : list Project.t) (o : option Acc.t) :
  fold_left (fun o x => Some (accUpd o x)) ps o
  = match ps with
    | [] => o
    | _ =>
        Some (Acc.mk
                (Acc.total (or_object o Acc.zero)
                 + sumZ (map Project.nett_gp ps))
                (Acc.count (or_object o Acc.zero)
                 + Z.of_nat (List.length ps)))
    end.
Proof.
  revert o; induction ps as [|p ps IH]; intros o.
  - reflexivity.
  - simpl fold_left. rewrite IH. destruct ps as [|q ps].
    + unfold accUpd. simpl. f_equal. f_equal; lia.
    + f_equal. unfold accUpd.
      cbn [or_object Acc.total Acc.count].
      rewrite (map_cons Project.nett_gp p), sumZ_cons.
      change (List.length (p :: q :: ps)) with (S (List.length (q :: ps))).
      f_equal; lia.
Qed.

(** ** Dashboard statistics *)

Lemma quarterIncome_sumZ (projects : list Project.t) (quarter : string) :
  Dashboard.quarterIncome projects quarter
  = sumZ (map Project.nett_gp
            (filter (fun p => String.eqb (Project.quarter p) quarter)
                    projects)).
Proof.
  unfold Dashboard.quarterIncome, JsArray.reduce.
  rewrite fold_left_add_shift. lia.
Qed.

Lemma quarterIncome_cons (p : Project.t) (projects : list Project.t)
    (quarter : string) :
  Dashboard.quarterIncome (p :: projects) quarter
  = (if String.eqb (Project.quarter p) quarter then Project.nett_gp p else 0)
    + Dashboard.quarterIncome projects quarter.
Proof.
  rewrite !quarterIncome_sumZ. simpl.
  destruct (String.eqb (Project.quarter p) quarter); reflexivity.
Qed.

Lemma quarters_partition (projects : list Project.t) :
  Forall (fun p => In (Project.quarter p) Dashboard.quarters) projects ->
  Dashboard.quarterIncome projects "Q1"
  + Dashboard.quarterIncome projects "Q2"
  + Dashboard.quarterIncome projects "Q3"
  + Dashboard.quarterIncome projects "Q4"
  = sumZ (map Project.nett_gp projects).
Proof.
  induction 1 as [|p projects Hp Hall IH].
  - reflexivity.
  - rewrite !quarterIncome_cons. simpl sumZ. rewrite <- IH.
    simpl in Hp.
    destruct Hp as [E|[E|[E|[E|[]]]]]; rewrite <- E; simpl; lia.
Qed.

Lemma categoryMap_sum (projects : list Project.t) :
  sumZ (map snd (Dashboard.categoryMap projects))
  = sumZ (map Project.nett_gp projects).
Proof.
  rewrite categoryMap_group.
  pose proof (group_sum string_dec Project.category sumUpd
                (fun v => v) Project.nett_gp sumUpd_weight projects [])
    as H.
  simpl in H. exact H.
Qed.

Lemma categoryData_values (projects : list Project.t) :
  map Dashboard.CategoryEntry.value (Dashboard.categoryData projects)
  = map snd (Dashboard.categoryMap projects).
Proof.
  unfold Dashboard.categoryData, JsMap.entries. rewrite map_map.
  apply map_ext. intros [k v]. reflexivity.
Qed.

Lemma categoryData_names (projects : list Project.t) :
  map Dashboard.CategoryEntry.name (Dashboard.categoryData projects)
  = map fst (Dashboard.categoryMap projects).
Proof.
  unfold Dashboard.categoryData, JsMap.entries. rewrite map_map.
  apply map_ext. intros [k v]. reflexivity.
Qed.

Lemma filter_map_length {A B : Type} (f : A -> B) (t : B -> bool)
    (l : list A) :
  List.length (filter (fun a => t (f a)) l)
  = List.length (filter t (map f l)).
Proof.
  induction l as [|a l IH]; simpl; [reflexivity|].
  destruct (t (f a)); simpl; rewrite IH; reflexivity.
Qed.

Lemma NoDup_count_one (l : list string) (x : string) :
  NoDup l -> In x l ->
  List.length (filter (fun y => String.eqb y x) l) = 1%nat.
Proof.
  induction 1 as [|y l Hnotin Hnd IH]; simpl; intros Hin.
  - contradiction.
  - destruct (String.eqb_spec y x) as [E|N].
    + subst y. simpl. f_equal.
      assert (Hnone : filter (fun y => String.eqb y x) l = []).
      { clear -Hnotin. induction l as [|z l IH]; simpl; [reflexivity|].
        destruct (String.eqb_spec z x) as [E|N].
        - exfalso. apply Hnotin. left. exact E.
        - apply IH. intros H. apply Hnotin. right. exact H. }
      rewrite Hnone. reflexivity.
    + destruct Hin as [E|Hin]; [congruence | apply IH; exact Hin].
Qed.

(** The maps that keep one running sum per key. *)
Section SumGroupFacts.
Context {K : Type}.
Variable K_eq_dec : forall a b : K, {a = b} + {a <> b}.
Variable keyOf : Project.t -> K.

Local Abbreviation sums := (groupFrom K_eq_dec keyOf sumUpd []).

Lemma sumGroup_entry (projects : list Project.t) (k : K) (value : Z) :
  In (k, value) (sums projects) ->
  value = sumZ (map Project.nett_gp (withKey K_eq_dec keyOf k projects))
  /\ In k (map keyOf projects).
Proof.
  intros Hin.
  assert (Hkey : In k (map keyOf projects)).
  { apply (in_map fst) in Hin. simpl in Hin.
    apply group_keys in Hin. destruct Hin as [[]|Hin]. exact Hin. }
  split; [|exact Hkey].
  apply get_In with (K_eq_dec := K_eq_dec) in Hin;
    [|apply group_NoDup; constructor].
  rewrite group_get, sumUpd_fold in Hin. simpl JsMap.get in Hin.
  pose proof (keyed_nonempty K_eq_dec keyOf k projects Hkey) as Hne.
  destruct (withKey K_eq_dec keyOf k projects) as [|q qs]; [congruence|].
  inversion Hin. simpl. lia.
Qed.

Lemma sumGroup_total (projects : list Project.t) :
  sumZ (map snd (sums projects)) = sumZ (map Project.nett_gp projects).
Proof.
  pose proof (group_sum K_eq_dec keyOf sumUpd (fun v => v) Project.nett_gp
                sumUpd_weight projects []) as H.
  simpl in H. exact H.
Qed.
End SumGroupFacts.

Lemma categoryMap_entry (projects : list Project.t) (name : string)
    (value : Z) :
  In (name, value) (Dashboard.categoryMap projects) ->
  value = sumZ (map Project.nett_gp
                  (withKey string_dec Project.category name projects))
  /\ In name (map Project.category projects).
Proof. rewrite categoryMap_group. apply sumGroup_entry. Qed.

(** The quotient is the double the source computes, not the exact
    fraction: 7 of 200 is 3.5000000000000004 (one unit in the last place
    above 7/2), 300 of 200 is 150, and without the guard a target of 0
    would give infinity or NaN. *)
Lemma achievement_in_doubles :
  Dashboard.achievement 7 200
  = SpecFloat.S754_finite false 7881299347898369 (-51)
  /\ Double.div (Double.ofZ 7) (Double.ofZ 2)
     = SpecFloat.S754_finite false 7881299347898368 (-51)
  /\ Dashboard.achievement 300 200 = Double.ofZ 150
  /\ Double.mul (Double.div (Double.ofZ 300) (Double.ofZ 0)) (Double.ofZ 100)
     = SpecFloat.S754_infinity false
  /\ Double.mul (Double.div (Double.ofZ 0) (Double.ofZ 0)) (Double.ofZ 100)
     = SpecFloat.S754_nan.
Proof. repeat split; vm_compute; reflexivity. Qed.

(** C1. For every record list and every target row (or none), the computed
    statistics have [totalIncome] the sum of [nett_gp], [target] the row's
    yearly target (0 without a row), [achievement] equal to
    [totalIncome / target * 100], computed in doubles as the source does,
    when the target is positive and to 0 when the target is 0, whatever
    the income, and [gap = target - totalIncome] exactly, which is
    negative when the income exceeds the target. *)
Theorem dashboard_achievement_and_gap (projects : list Project.t)
    (targetData : option Target.t) :
  Dashboard.DashboardStats.totalIncome (Dashboard.stats projects targetData)
  = sumZ (map Project.nett_gp projects)
  /\ Dashboard.DashboardStats.target (Dashboard.stats projects targetData)
     = match targetData with
       | Some row => Target.yearly_target row
       | None => 0
       end
  /\ (Dashboard.DashboardStats.target (Dashboard.stats projects targetData) > 0 ->
      Dashboard.DashboardStats.achievement (Dashboard.stats projects targetData)
      = Double.mul
          (Double.div
             (Double.ofZ (Dashboard.DashboardStats.totalIncome
                            (Dashboard.stats projects targetData)))
             (Double.ofZ (Dashboard.DashboardStats.target
                            (Dashboard.stats projects targetData))))
          (Double.ofZ 100))
  /\ (Dashboard.DashboardStats.target (Dashboard.stats projects targetData) = 0 ->
      Dashboard.DashboardStats.achievement (Dashboard.stats projects targetData)
      = Double.ofZ 0)
  /\ Dashboard.DashboardStats.gap (Dashboard.stats projects targetData)
     = Dashboard.DashboardStats.target (Dashboard.stats projects targetData)
       - Dashboard.DashboardStats.totalIncome
           (Dashboard.stats projects targetData)
  /\ (Dashboard.DashboardStats.totalIncome (Dashboard.stats projects targetData)
      > Dashboard.DashboardStats.target (Dashboard.stats projects targetData) ->
      Dashboard.DashboardStats.gap (Dashboard.stats projects targetData) < 0).
Proof.
  unfold Dashboard.stats. cbn [Dashboard.DashboardStats.totalIncome
    Dashboard.DashboardStats.target Dashboard.DashboardStats.achievement
    Dashboard.DashboardStats.gap].
  repeat split.
  - apply sumNettGp_sumZ.
  - unfold Dashboard.yearlyTarget. rewrite or_number_zero.
    destruct targetData; reflexivity.
  - intros Hpos. unfold Dashboard.achievement.
    destruct (Z.ltb_spec 0 (Dashboard.yearlyTarget targetData));
      [reflexivity | lia].
  - intros Hzero. unfold Dashboard.achievement. rewrite Hzero. reflexivity.
  - lia.
Qed.

Lemma dashboard_achievement_and_gap_witness :
  Dashboard.DashboardStats.achievement
    (Dashboard.stats Sample.two (Some Sample.target200)) = Double.ofZ 150
  /\ Dashboard.DashboardStats.gap
       (Dashboard.stats Sample.two (Some Sample.target200)) < 0
  /\ Dashboard.DashboardStats.achievement (Dashboard.stats Sample.two None)
     = Double.ofZ 0.
Proof.
  destruct (dashboard_achievement_and_gap Sample.two (Some Sample.target200))
    as (_ & _ & Hpos & _ & _ & Hneg).
  destruct (dashboard_achievement_and_gap Sample.two None)
    as (_ & _ & _ & Hzero & _).
  split; [|split].
  - rewrite Hpos; [vm_compute; reflexivity | vm_compute; reflexivity].
  - apply Hneg. vm_compute. reflexivity.
  - apply Hzero. vm_compute. reflexivity.
Defined.

(** C2. When every record's quarter is one of Q1..Q4 the four quarterly
    incomes sum to [totalIncome] and every record falls into exactly one
    quarter entry; for every record list the category values sum to
    [totalIncome], every record's category names exactly one category
    entry, and every entry holds the sum of the records of its quarter,
    respectively category. *)
Theorem breakdowns_partition (projects : list Project.t)
    (targetData : option Target.t) :
  (Forall (fun p => In (Project.quarter p) Dashboard.quarters) projects ->
   sumZ (map Dashboard.QuarterEntry.income
           (Dashboard.quarterlyData projects targetData))
   = Dashboard.DashboardStats.totalIncome (Dashboard.stats projects targetData)
   /\ forall p, In p projects ->
        List.length
          (filter (fun e => String.eqb (Dashboard.QuarterEntry.quarter e)
                                       (Project.quarter p))
                  (Dashboard.quarterlyData projects targetData)) = 1%nat)
  /\ sumZ (map Dashboard.CategoryEntry.value (Dashboard.categoryData projects))
     = Dashboard.DashboardStats.totalIncome (Dashboard.stats projects targetData)
  /\ (forall p, In p projects ->
        List.length
          (filter (fun e => String.eqb (Dashboard.CategoryEntry.name e)
                                       (Project.category p))
                  (Dashboard.categoryData projects)) = 1%nat)
  /\ (forall e, In e (Dashboard.quarterlyData projects targetData) ->
        Dashboard.QuarterEntry.income e
        = sumZ (map Project.nett_gp
                  (filter (fun p => String.eqb (Project.quarter p)
                                      (Dashboard.QuarterEntry.quarter e))
                          projects)))
  /\ (forall e, In e (Dashboard.categoryData projects) ->
        Dashboard.CategoryEntry.value e
        = sumZ (map Project.nett_gp
                  (withKey string_dec Project.category
                           (Dashboard.CategoryEntry.name e) projects))).
Proof.
  change (Dashboard.DashboardStats.totalIncome
            (Dashboard.stats projects targetData))
    with (sumNettGp projects).
  rewrite sumNettGp_sumZ.
  split; [|split; [|split; [|split]]].
  - intros Hq. split.
    + rewrite <- (quarters_partition projects Hq).
      unfold Dashboard.quarterlyData, Dashboard.quarters. simpl. lia.
    + intros p Hp. rewrite Forall_forall in Hq. specialize (Hq p Hp).
      simpl in Hq.
      destruct Hq as [E|[E|[E|[E|[]]]]]; rewrite <- E; reflexivity.
  - rewrite categoryData_values. apply categoryMap_sum.
  - intros p Hp.
    rewrite (filter_map_length Dashboard.CategoryEntry.name
               (fun name => String.eqb name (Project.category p))).
    rewrite categoryData_names, categoryMap_group.
    apply NoDup_count_one.
    + apply group_NoDup. constructor.
    + apply group_keys. right. apply in_map. exact Hp.
  - intros e He. unfold Dashboard.quarterlyData in He.
    apply in_map_iff in He. destruct He as [q [E _]]. subst e. simpl.
    apply quarterIncome_sumZ.
  - intros e He. unfold Dashboard.categoryData, JsMap.entries in He.
    apply in_map_iff in He. destruct He as [[name value] [E Hin]].
    subst e. simpl. apply categoryMap_entry in Hin. tauto.
Qed.

Lemma breakdowns_partition_witness :
  sumZ (map Dashboard.QuarterEntry.income
          (Dashboard.quarterlyData Sample.mixed None)) = 825
  /\ List.length
       (filter (fun e => String.eqb (Dashboard.QuarterEntry.quarter e) "Q3")
               (Dashboard.quarterlyData Sample.mixed None)) = 1%nat
  /\ List.length
       (filter (fun e => String.eqb (Dashboard.CategoryEntry.name e) "LSC")
               (Dashboard.categoryData Sample.mixed)) = 1%nat.
Proof.
  destruct (breakdowns_partition Sample.mixed None)
    as (Hq & _ & Hc & _ & _).
  assert (Hall : Forall (fun p => In (Project.quarter p) Dashboard.quarters)
                        Sample.mixed).
  { unfold Sample.mixed.
    repeat (apply Forall_cons; [simpl; auto 6|]). apply Forall_nil. }
  destruct (Hq Hall) as [Hsum Hone].
  split; [|split].
  - rewrite Hsum. reflexivity.
  - apply (Hone (Sample.project "LSC" None (Some "Xena") 50 "Q3")).
    simpl. tauto.
  - apply (Hc (Sample.project "LSC" None (Some "Xena") 50 "Q3")).
    simpl. tauto.
Defined.

(** C6. The aggregation is a total function.  On the empty record list the
    total income is 0, the four quarterly incomes are 0, the category
    breakdown and all rankings are empty; without a target row the target
    is 0, the achievement is 0, every quarterly target is 0 and the gap is
    [0 - totalIncome]. *)
Theorem empty_input_and_null_target :
  (forall targetData : option Target.t,
     Dashboard.DashboardStats.totalIncome (Dashboard.stats [] targetData) = 0
     /\ map Dashboard.QuarterEntry.income
            (Dashboard.DashboardStats.quarterlyData
               (Dashboard.stats [] targetData)) = [0; 0; 0; 0]
     /\ Dashboard.DashboardStats.categoryData (Dashboard.stats [] targetData)
        = []
     /\ Dashboard.topPics (Dashboard.fetchDashboardData [] targetData) = []
     /\ Dashboard.topProducts (Dashboard.fetchDashboardData [] targetData) = []
     /\ TopPics.fetchRankings [] = []
     /\ TopProducts.fetchRankings [] = [])
  /\ (forall projects : list Project.t,
        Dashboard.DashboardStats.target (Dashboard.stats projects None) = 0
        /\ Dashboard.DashboardStats.achievement (Dashboard.stats projects None)
           = Double.ofZ 0
        /\ map Dashboard.QuarterEntry.target
               (Dashboard.DashboardStats.quarterlyData
                  (Dashboard.stats projects None)) = [0; 0; 0; 0]
        /\ Dashboard.DashboardStats.gap (Dashboard.stats projects None)
           = 0 - Dashboard.DashboardStats.totalIncome
                   (Dashboard.stats projects None)).
Proof.
  split.
  - intros targetData. repeat split; reflexivity.
  - intros projects. repeat split; reflexivity.
Qed.

(** ** Rankings *)

Section RankingFacts.
Context {K : Type}.
Variable K_eq_dec : forall a b : K, {a = b} + {a <> b}.
Variable keyOf : Project.t -> K.

Local Abbreviation groups := (accMap K_eq_dec keyOf).
Local Abbreviation ranking := (rankingOf K_eq_dec keyOf).
Local Abbreviation keyed := (withKey K_eq_dec keyOf).

Lemma accMap_NoDup (projects : list Project.t) :
  NoDup (map fst (groups projects)).
Proof. apply group_NoDup. constructor. Qed.

Lemma accMap_entry (projects : list Project.t) (k : K) (a : Acc.t) :
  In (k, a) (groups projects) ->
  a = Acc.mk (sumZ (map Project.nett_gp (keyed k projects)))
             (Z.of_nat (List.length (keyed k projects)))
  /\ keyed k projects <> [].
Proof.
  intros Hin.
  assert (Hkey : In k (map keyOf projects)).
  { apply (in_map fst) in Hin. simpl in Hin.
    apply group_keys in Hin. destruct Hin as [[]|Hin]. exact Hin. }
  pose proof (keyed_nonempty K_eq_dec keyOf k projects Hkey) as Hne.
  split; [|exact Hne].
  apply get_In with (K_eq_dec := K_eq_dec) in Hin; [|apply accMap_NoDup].
  unfold accMap in Hin. rewrite group_get, accUpd_fold in Hin.
  simpl JsMap.get in Hin.
  destruct (keyed k projects) as [|q qs]; [congruence|].
  inversion Hin. simpl or_object. simpl Acc.total. simpl Acc.count.
  f_equal.
Qed.

Lemma accMap_counts (projects : list Project.t) :
  sumZ (map (fun e => Acc.count (snd e)) (groups projects))
  = Z.of_nat (List.length projects).
Proof.
  unfold accMap.
  rewrite (group_sum K_eq_dec keyOf accUpd Acc.count (fun _ => 1)).
  - simpl. apply sumZ_ones.
  - intros [c|] x; reflexivity.
Qed.

Lemma accMap_totals (projects : list Project.t) :
  sumZ (map (fun e => Acc.total (snd e)) (groups projects))
  = sumZ (map Project.nett_gp projects).
Proof.
  unfold accMap.
  rewrite (group_sum K_eq_dec keyOf accUpd Acc.total Project.nett_gp).
  - reflexivity.
  - intros [c|] x; reflexivity.
Qed.

Lemma ranking_length (projects : list Project.t) :
  List.length (ranking projects)
  = Nat.min 5 (distinctKeys K_eq_dec keyOf projects).
Proof.
  unfold rankingOf, rankedAll, distinctKeys.
  rewrite top_length, length_map. unfold accMap.
  rewrite group_length. reflexivity.
Qed.

Lemma ranking_sorted (projects : list Project.t) :
  adjacentDesc Ranking.totalIncome (ranking projects).
Proof.
  unfold adjacentDesc. intros i a b Ha Hb.
  exact (sorted_adjacent (descending Ranking.totalIncome) _
           (top_sorted Ranking.totalIncome 5 _) i a b Ha Hb).
Qed.

Lemma ranking_entry (projects : list Project.t) (e : Ranking.t K) :
  In e (ranking projects) ->
  Ranking.totalIncome e
  = sumZ (map Project.nett_gp (keyed (Ranking.key e) projects))
  /\ Ranking.projectCount e
     = Z.of_nat (List.length (keyed (Ranking.key e) projects))
  /\ Ranking.projectCount e >= 1.
Proof.
  intros Hin. unfold rankingOf, rankedAll in Hin.
  apply top_In in Hin. apply in_map_iff in Hin.
  destruct Hin as [[k a] [E Hin]]. subst e. unfold toRanking. simpl.
  apply accMap_entry in Hin. destruct Hin as [Ha Hne]. subst a. simpl.
  repeat split.
  destruct (keyed k projects); [congruence | simpl List.length; lia].
Qed.
Lemma rankedAll_counts (projects : list Project.t) :
  sumZ (map Ranking.projectCount (rankedAll K_eq_dec keyOf projects))
  = Z.of_nat (List.length projects).
Proof.
  unfold rankedAll.
  rewrite (sumZ_perm _ _
             (Permutation_map Ranking.projectCount
                (sort_perm Ranking.totalIncome _))).
  rewrite map_map. simpl. apply accMap_counts.
Qed.
End RankingFacts.

(** ** The product leaderboard and its per-PIC breakdown *)

Lemma productUpd_fold (ps : list Project.t)
    (o : option TopProducts.ProductAcc.t) :
  fold_left (fun o x => Some (productUpd o x)) ps o
  = match ps with
    | [] => o
    | _ =>
        Some (TopProducts.ProductAcc.mk
                (TopProducts.ProductAcc.total
                   (or_object o TopProducts.ProductAcc.zero)
                 + sumZ (map Project.nett_gp ps))
                (TopProducts.ProductAcc.count
                   (or_object o TopProducts.ProductAcc.zero)
                 + Z.of_nat (List.length ps))
                (groupFrom option_string_dec Project.pic sumUpd
                   (TopProducts.ProductAcc.pics
                      (or_object o TopProducts.ProductAcc.zero)) ps))
    end.
Proof.
  revert o; induction ps as [|p ps IH]; intros o.
  - reflexivity.
  - simpl fold_left. rewrite IH. destruct ps as [|q ps].
    + unfold productUpd. simpl. f_equal. f_equal; lia.
    + f_equal. unfold productUpd.
      cbn [or_object TopProducts.ProductAcc.total
           TopProducts.ProductAcc.count TopProducts.ProductAcc.pics].
      rewrite (map_cons Project.nett_gp p), sumZ_cons.
      change (List.length (p :: q :: ps)) with (S (List.length (q :: ps))).
      f_equal; lia.
Qed.

Lemma productMap_entry (projects : list Project.t) (k : string)
    (a : TopProducts.ProductAcc.t) :
  In (k, a) (TopProducts.productMap projects) ->
  a = TopProducts.ProductAcc.mk
        (sumZ (map Project.nett_gp
                 (withKey string_dec productName k projects)))
        (Z.of_nat (List.length (withKey string_dec productName k projects)))
        (picIncomes (withKey string_dec productName k projects))
  /\ withKey string_dec productName k projects <> [].
Proof.
  rewrite TopProducts_productMap_group. intros Hin.
  assert (Hkey : In k (map productName projects)).
  { apply (in_map fst) in Hin. simpl in Hin.
    apply group_keys in Hin. destruct Hin as [[]|Hin]. exact Hin. }
  pose proof (keyed_nonempty string_dec productName k projects Hkey) as Hne.
  split; [|exact Hne].
  apply get_In with (K_eq_dec := string_dec) in Hin;
    [|apply group_NoDup; constructor].
  rewrite group_get, productUpd_fold in Hin. simpl JsMap.get in Hin.
  unfold picIncomes.
  destruct (withKey string_dec productName k projects) as [|q qs];
    [congruence|].
  inversion Hin. reflexivity.
Qed.

Lemma productMap_counts (projects : list Project.t) :
  sumZ (map (fun e => TopProducts.ProductAcc.count (snd e))
            (TopProducts.productMap projects))
  = Z.of_nat (List.length projects).
Proof.
  rewrite TopProducts_productMap_group.
  rewrite (group_sum string_dec productName productUpd
             TopProducts.ProductAcc.count (fun _ => 1)).
  - simpl. apply sumZ_ones.
  - intros [c|] x; reflexivity.
Qed.

Lemma TopProducts_ranking_cut (projects : list Project.t) :
  TopProducts.fetchRankings projects
  = JsArray.slice 0 5 (productRankedAll projects).
Proof. reflexivity. Qed.

Lemma productRankedAll_counts (projects : list Project.t) :
  sumZ (map TopProducts.ProductRanking.projectCount
            (productRankedAll projects))
  = Z.of_nat (List.length projects).
Proof.
  unfold productRankedAll, JsMap.entries.
  rewrite (sumZ_perm _ _
             (Permutation_map TopProducts.ProductRanking.projectCount
                (sort_perm TopProducts.ProductRanking.totalIncome _))).
  rewrite map_map. rewrite <- productMap_counts. f_equal.
  apply map_ext. intros [k a]. reflexivity.
Qed.

Lemma picsArray_perm (pics : list (option string * Z)) :
  Permutation (TopProducts.picsArray pics)
    (map (fun e => TopProducts.PicBreakdown.mk (fst e) (snd e)) pics).
Proof.
  unfold TopProducts.picsArray, JsMap.entries.
  replace (map (fun '(pic, income) => TopProducts.PicBreakdown.mk pic income)
               pics)
    with (map (fun e => TopProducts.PicBreakdown.mk (fst e) (snd e)) pics)
    by (apply map_ext; intros [k v]; reflexivity).
  apply (sort_perm TopProducts.PicBreakdown.income).
Qed.

Lemma TopProducts_ranking_In (projects : list Project.t)
    (e : TopProducts.ProductRanking.t) :
  In e (TopProducts.fetchRankings projects) ->
  exists a, In (TopProducts.ProductRanking.product e, a)
               (TopProducts.productMap projects)
            /\ e = TopProducts.ProductRanking.mk
                     (TopProducts.ProductRanking.product e)
                     (TopProducts.ProductAcc.total a)
                     (TopProducts.ProductAcc.count a)
                     (TopProducts.picsArray (TopProducts.ProductAcc.pics a)).
Proof.
  unfold TopProducts.fetchRankings, TopProducts.rankingsArray, JsMap.entries.
  intros Hin.
  apply (top_In TopProducts.ProductRanking.totalIncome) in Hin.
  apply in_map_iff in Hin. destruct Hin as [[k a] [E Hin]].
  exists a. subst e. simpl. split; [exact Hin | reflexivity].
Qed.

(** C4. In the product ranking, every entry's per-PIC breakdown is the
    per-PIC grouping of that product's records, sorted; each breakdown
    entry holds the sum of [nett_gp] of the product's records of that PIC,
    no PIC occurs twice, the breakdown incomes sum to the product's
    [totalIncome], and neighbours are in descending order of income. *)
Theorem product_breakdown (projects : list Project.t)
    (e : TopProducts.ProductRanking.t) :
  In e (TopProducts.fetchRankings projects) ->
  TopProducts.ProductRanking.pics e
  = TopProducts.picsArray
      (picIncomes (withKey string_dec productName
                           (TopProducts.ProductRanking.product e) projects))
  /\ (forall b, In b (TopProducts.ProductRanking.pics e) ->
        TopProducts.PicBreakdown.income b
        = sumZ (map Project.nett_gp
                  (withKey option_string_dec Project.pic
                     (TopProducts.PicBreakdown.pic b)
                     (withKey string_dec productName
                        (TopProducts.ProductRanking.product e) projects))))
  /\ NoDup (map TopProducts.PicBreakdown.pic (TopProducts.ProductRanking.pics e))
  /\ sumZ (map TopProducts.PicBreakdown.income
             (TopProducts.ProductRanking.pics e))
     = TopProducts.ProductRanking.totalIncome e
  /\ TopProducts.ProductRanking.totalIncome e
     = sumZ (map Project.nett_gp
               (withKey string_dec productName
                        (TopProducts.ProductRanking.product e) projects))
  /\ adjacentDesc TopProducts.PicBreakdown.income
                  (TopProducts.ProductRanking.pics e).
Proof.
  intros Hin. apply TopProducts_ranking_In in Hin.
  destruct Hin as [a [Hin E]].
  apply productMap_entry in Hin. destruct Hin as [Ha _]. rewrite E. subst a.
  cbn [TopProducts.ProductRanking.pics TopProducts.ProductRanking.totalIncome
       TopProducts.ProductRanking.product TopProducts.ProductAcc.pics
       TopProducts.ProductAcc.total].
  set (own := withKey string_dec productName
                (TopProducts.ProductRanking.product e) projects).
  pose proof (picsArray_perm (picIncomes own)) as Hperm.
  split; [reflexivity|]. split; [|split; [|split; [|split]]].
  - intros b Hb. apply (Permutation_in _ Hperm) in Hb.
    apply in_map_iff in Hb. destruct Hb as [[k v] [Eb Hb]]. subst b.
    simpl. apply sumGroup_entry in Hb. tauto.
  - apply (Permutation_map TopProducts.PicBreakdown.pic) in Hperm.
    apply (Permutation_NoDup (Permutation_sym Hperm)).
    rewrite map_map. simpl.
    apply (group_NoDup option_string_dec Project.pic sumUpd own []).
    constructor.
  - apply (Permutation_map TopProducts.PicBreakdown.income) in Hperm.
    rewrite (sumZ_perm _ _ Hperm), map_map. simpl.
    apply sumGroup_total.
  - reflexivity.
  - unfold adjacentDesc. intros i x y Hx Hy.
    unfold TopProducts.picsArray in Hx, Hy.
    exact (sorted_adjacent (descending TopProducts.PicBreakdown.income) _
             (sort_sorted TopProducts.PicBreakdown.income _) i x y Hx Hy).
Qed.

Lemma product_breakdown_witness :
  In Sample.ciscoEntry (TopProducts.fetchRankings Sample.mixed)
  /\ sumZ (map TopProducts.PicBreakdown.income
              (TopProducts.ProductRanking.pics Sample.ciscoEntry))
     = TopProducts.ProductRanking.totalIncome Sample.ciscoEntry
  /\ NoDup (map TopProducts.PicBreakdown.pic
                (TopProducts.ProductRanking.pics Sample.ciscoEntry)).
Proof.
  assert (Hin : In Sample.ciscoEntry
                   (TopProducts.fetchRankings Sample.mixed))
    by (vm_compute; auto).
  destruct (product_breakdown Sample.mixed Sample.ciscoEntry Hin)
    as (_ & _ & Hnd & Hsum & _).
  split; [exact Hin | split; [exact Hsum | exact Hnd]].
Defined.

Lemma TopProducts_ranking_length (projects : list Project.t) :
  List.length (TopProducts.fetchRankings projects)
  = Nat.min 5 (distinctKeys string_dec productName projects).
Proof.
  unfold TopProducts.fetchRankings, TopProducts.rankingsArray, JsMap.entries,
    distinctKeys.
  rewrite (top_length TopProducts.ProductRanking.totalIncome), length_map.
  rewrite TopProducts_productMap_group, group_length. reflexivity.
Qed.

Lemma TopProducts_ranking_sorted (projects : list Project.t) :
  adjacentDesc TopProducts.ProductRanking.totalIncome
               (TopProducts.fetchRankings projects).
Proof.
  unfold adjacentDesc. intros i a b Ha Hb.
  exact (sorted_adjacent
           (descending TopProducts.ProductRanking.totalIncome) _
           (top_sorted TopProducts.ProductRanking.totalIncome 5 _)
           i a b Ha Hb).
Qed.

(** C3. Every ranking (the dashboard's PIC and product rankings and the two
    leaderboards) has as many entries as the smaller of 5 and the number
    of distinct keys of its records, and any two neighbouring entries
    [a], [b] of it satisfy [a.totalIncome >= b.totalIncome]. *)
Theorem rankings_top_five_sorted (projects : list Project.t) :
  (List.length (Dashboard.topPicsArray projects)
   = Nat.min 5 (distinctKeys string_dec picName projects)
   /\ adjacentDesc Ranking.totalIncome (Dashboard.topPicsArray projects))
  /\ (List.length (Dashboard.topProductsArray projects)
      = Nat.min 5 (distinctKeys string_dec productName projects)
      /\ adjacentDesc Ranking.totalIncome
                      (Dashboard.topProductsArray projects))
  /\ (List.length (TopPics.fetchRankings projects)
      = Nat.min 5 (distinctKeys option_string_dec Project.pic projects)
      /\ adjacentDesc Ranking.totalIncome (TopPics.fetchRankings projects))
  /\ (List.length (TopProducts.fetchRankings projects)
      = Nat.min 5 (distinctKeys string_dec productName projects)
      /\ adjacentDesc TopProducts.ProductRanking.totalIncome
                      (TopProducts.fetchRankings projects)).
Proof.
  rewrite topPicsArray_ranking, topProductsArray_ranking, TopPics_ranking.
  repeat split;
    try apply ranking_length; try apply ranking_sorted.
  - apply TopProducts_ranking_length.
  - apply TopProducts_ranking_sorted.
Qed.

Lemma TopProducts_entry_count (projects : list Project.t)
    (e : TopProducts.ProductRanking.t) :
  In e (TopProducts.fetchRankings projects) ->
  TopProducts.ProductRanking.projectCount e
  = Z.of_nat (List.length
                (withKey string_dec productName
                         (TopProducts.ProductRanking.product e) projects))
  /\ TopProducts.ProductRanking.projectCount e >= 1.
Proof.
  intros Hin. apply TopProducts_ranking_In in Hin.
  destruct Hin as [a [Hin E]]. apply productMap_entry in Hin.
  destruct Hin as [Ha Hne]. rewrite E. subst a.
  cbn [TopProducts.ProductRanking.projectCount
       TopProducts.ProductRanking.product TopProducts.ProductAcc.count].
  split; [reflexivity|].
  destruct (withKey string_dec productName
              (TopProducts.ProductRanking.product e) projects);
    [congruence | simpl List.length; lia].
Qed.

(** C9. In every ranking (the dashboard's PIC and product rankings, the PIC
    leaderboard and the product leaderboard) each entry's [projectCount] is
    the number of records of its group and is at least 1, and over the
    whole sorted array, before it is cut to five, the counts sum to the
    number of records. *)
Theorem ranking_project_counts (projects : list Project.t) :
  (Dashboard.topPicsArray projects
   = JsArray.slice 0 5 (rankedAll string_dec picName projects)
   /\ (forall e, In e (Dashboard.topPicsArray projects) ->
         Ranking.projectCount e
         = Z.of_nat (List.length
                       (withKey string_dec picName (Ranking.key e) projects))
         /\ Ranking.projectCount e >= 1)
   /\ sumZ (map Ranking.projectCount (rankedAll string_dec picName projects))
      = Z.of_nat (List.length projects))
  /\ (TopPics.fetchRankings projects
      = JsArray.slice 0 5 (rankedAll option_string_dec Project.pic projects)
      /\ (forall e, In e (TopPics.fetchRankings projects) ->
            Ranking.projectCount e
            = Z.of_nat (List.length
                          (withKey option_string_dec Project.pic
                                   (Ranking.key e) projects))
            /\ Ranking.projectCount e >= 1)
      /\ sumZ (map Ranking.projectCount
                 (rankedAll option_string_dec Project.pic projects))
         = Z.of_nat (List.length projects))
  /\ (Dashboard.topProductsArray projects
      = JsArray.slice 0 5 (rankedAll string_dec productName projects)
      /\ (forall e, In e (Dashboard.topProductsArray projects) ->
            Ranking.projectCount e
            = Z.of_nat (List.length
                          (withKey string_dec productName
                                   (Ranking.key e) projects))
            /\ Ranking.projectCount e >= 1)
      /\ sumZ (map Ranking.projectCount
                 (rankedAll string_dec productName projects))
         = Z.of_nat (List.length projects))
  /\ (TopProducts.fetchRankings projects
      = JsArray.slice 0 5 (productRankedAll projects)
      /\ (forall e, In e (TopProducts.fetchRankings projects) ->
            TopProducts.ProductRanking.projectCount e
            = Z.of_nat (List.length
                          (withKey string_dec productName
                             (TopProducts.ProductRanking.product e) projects))
            /\ TopProducts.ProductRanking.projectCount e >= 1)
      /\ sumZ (map TopProducts.ProductRanking.projectCount
                 (productRankedAll projects))
         = Z.of_nat (List.length projects)).
Proof.
  rewrite topPicsArray_ranking, TopPics_ranking, topProductsArray_ranking.
  split; [|split; [|split]]; (split; [reflexivity | split]).
  - intros e He. apply ranking_entry in He. tauto.
  - apply rankedAll_counts.
  - intros e He. apply ranking_entry in He. tauto.
  - apply rankedAll_counts.
  - intros e He. apply ranking_entry in He. tauto.
  - apply rankedAll_counts.
  - apply TopProducts_entry_count.
  - apply productRankedAll_counts.
Qed.

Lemma ranking_project_counts_witness :
  Ranking.projectCount (Ranking.mk "Xena" 190 3) >= 1
  /\ Ranking.projectCount (Ranking.mk (Some "Xena") 190 3)
     = Z.of_nat (List.length
                   (withKey option_string_dec Project.pic (Some "Xena")
                            Sample.mixed)).
Proof.
  destruct (ranking_project_counts Sample.mixed)
    as ((_ & Hdash & _) & (_ & Htop & _) & _).
  split.
  - apply (Hdash (Ranking.mk "Xena" 190 3)). vm_compute. auto.
  - apply (Htop (Ranking.mk (Some "Xena") 190 3)). vm_compute. auto.
Defined.

(** The dashboard and the product leaderboard put a missing and an empty
    key under ["N/A"]. *)
Lemma blank_keys_normalised (p : Project.t) :
  (Project.pic p = None \/ Project.pic p = Some EmptyString -> picName p = "N/A")
  /\ (Project.product p = None \/ Project.product p = Some EmptyString ->
      productName p = "N/A").
Proof.
  unfold picName, productName.
  split; intros [E|E]; rewrite E; reflexivity.
Qed.

(** On one record with an empty PIC and one without a PIC the dashboard's
    PIC ranking has the single bucket ["N/A"], and so have both product
    rankings on the like pair of products; the PIC leaderboard keeps the
    two records apart, under the keys it was given. *)
Theorem blank_pic_buckets :
  Dashboard.topPicsArray Sample.blankPics = [Ranking.mk "N/A" 300 2]
  /\ Dashboard.topProductsArray Sample.blankProducts
     = [Ranking.mk "N/A" 300 2]
  /\ map TopProducts.ProductRanking.product
         (TopProducts.fetchRankings Sample.blankProducts) = ["N/A"]
  /\ TopPics.fetchRankings Sample.blankPics
     = [Ranking.mk None 200 1; Ranking.mk (Some EmptyString) 100 1].
Proof. repeat split; reflexivity. Qed.

(** ** The report filter *)

Lemma to_int_proper (n : Z) :
  Z.to_int n <> Decimal.Pos Decimal.Nil /\ Z.to_int n <> Decimal.Neg Decimal.Nil.
Proof.
  destruct n as [|p|p]; simpl; split; try discriminate;
    intros H; inversion H as [E];
    exact (DecimalPos.Unsigned.to_uint_nonnil p E).
Qed.

(** The decimal rendering identifies the integer. *)
Lemma toString_inj (a b : Z) : toString a = toString b -> a = b.
Proof.
  unfold toString. intros H.
  apply (f_equal NilZero.int_of_string) in H.
  destruct (to_int_proper a) as [Ha1 Ha2].
  destruct (to_int_proper b) as [Hb1 Hb2].
  rewrite !NilZero.isi in H by assumption.
  inversion H as [E]. apply DecimalZ.to_int_inj. exact E.
Qed.

Lemma toString_eqb (a b : Z) :
  String.eqb (toString a) (toString b) = (a =? b).
Proof.
  destruct (String.eqb_spec (toString a) (toString b)) as [E|N];
    destruct (Z.eqb_spec a b) as [E'|N']; try reflexivity.
  - exfalso. apply N'. apply toString_inj. exact E.
  - exfalso. apply N. rewrite E'. reflexivity.
Qed.

Lemma filter_filter {A : Type} (f g : A -> bool) (l : list A) :
  filter g (filter f l) = filter (fun x => f x && g x) l.
Proof.
  induction l as [|x l IH]; simpl; [reflexivity|].
  destruct (f x); simpl; [destruct (g x)|]; rewrite IH; reflexivity.
Qed.

(** C10. For every project list, selected year, quarter and category, the
    report filter returns, in input order, exactly the projects of the
    selected year whose quarter is the selected one unless that is "all"
    and whose category is the selected one unless that is "all"; the
    displayed total is the sum of [nett_gp] over them. *)
Theorem report_filter (projects : list Project.t) (year : Z)
    (quarter category : string) :
  Reports.applyFilters projects (toString year) quarter category
  = filter (selected year quarter category) projects
  /\ Reports.totalIncome
       (Reports.applyFilters projects (toString year) quarter category)
     = sumZ (map Project.nett_gp
               (filter (selected year quarter category) projects)).
Proof.
  assert (H : Reports.applyFilters projects (toString year) quarter category
              = filter (selected year quarter category) projects).
  { unfold Reports.applyFilters, selected.
    destruct (String.eqb quarter "all"), (String.eqb category "all"); simpl;
      rewrite ?filter_filter; apply filter_ext; intros p;
      rewrite toString_eqb;
      destruct (Project.year p =? year); simpl;
      rewrite ?andb_true_r; reflexivity. }
  split; [exact H|].
  rewrite H. unfold Reports.totalIncome, JsArray.reduce.
  rewrite fold_left_add_shift. lia.
Qed.

(** ** Bulk import *)

Section ImportFacts.
Context {Row P : Type}.
Variable parseRow : Row -> ExcelParser.Outcome P.

Lemma collect_from (jsonData : list Row) (index : nat)
    (acc : ExcelParser.Collected) :
  JsArray.forEach_indexed jsonData (ExcelParser.onRow parseRow) index acc
  = ExcelParser.mkCollected
      (ExcelParser.errors acc
       ++ map (rowError parseRow)
              (filter (isRejected parseRow)
                      (combine (seq index (List.length jsonData)) jsonData)))
      (ExcelParser.validProjects acc ++ accepted parseRow jsonData).
Proof.
  revert index acc; induction jsonData as [|row rows IH]; intros index acc.
  - simpl. rewrite !app_nil_r. destruct acc; reflexivity.
  - simpl JsArray.forEach_indexed. rewrite IH.
    unfold ExcelParser.onRow, accepted, isRejected, rowError.
    cbn [List.length seq combine filter flat_map fst snd].
    destruct (parseRow row) as [project| messages|] eqn:E;
      cbn [isParsed negb map app fst snd ExcelParser.errors
           ExcelParser.validProjects];
      rewrite ?E; cbn [errorText];
      rewrite <- ?app_assoc; reflexivity.
Qed.

Lemma collect_spec (jsonData : list Row) :
  ExcelParser.collect parseRow jsonData
  = ExcelParser.mkCollected (map (rowError parseRow)
                                 (rejected parseRow jsonData))
                            (accepted parseRow jsonData).
Proof.
  unfold ExcelParser.collect. rewrite collect_from. reflexivity.
Qed.

Lemma none_rejected (jsonData : list Row) (index : nat) :
  filter (isRejected parseRow)
         (combine (seq index (List.length jsonData)) jsonData) = [] ->
  map parseRow jsonData = map ExcelParser.Parsed (accepted parseRow jsonData).
Proof.
  revert index; induction jsonData as [|row rows IH]; intros index H.
  - reflexivity.
  - simpl in H. unfold isRejected in H at 1. simpl in H.
    unfold accepted. simpl.
    destruct (parseRow row) as [project| messages|]; simpl in H;
      try discriminate.
    simpl. f_equal. apply (IH (S index)). exact H.
Qed.

End ImportFacts.

Section ImportUpload.
Context {Row : Type}.
Variable parseRow : Row -> ExcelParser.Outcome ExcelParser.ProjectData.t.

(** C7. Every row of a parsed sheet is checked on its own.  If some row is
    rejected, the result is a failure without data whose errors are, in
    order, one message per rejected row, each starting with "Row " and the
    row's index plus 2, and the upload form, whatever it held before, then
    sends nothing to the store; if no row is rejected and the sheet has a
    row, the result is a success carrying the project of every row, in
    order, and the form sends exactly these, one object per row. *)
Theorem bulk_import_all_or_nothing (jsonData : list Row) :
  (rejected parseRow jsonData <> [] ->
   ExcelParser.parseRows parseRow jsonData
   = ExcelParser.ParseResult.mk false None
       (Some (map (fun ir =>
                     ("Row " ++ toString (Z.of_nat (fst ir) + 2) ++ ": "
                      ++ errorText (parseRow (snd ir)))%string)
                  (rejected parseRow jsonData)))
   /\ forall st selected,
        (ExcelUpload.endsWith (ExcelUpload.name selected) ".xlsx"
         || ExcelUpload.endsWith (ExcelUpload.name selected) ".xls")%bool
        = true ->
        ExcelUpload.handleUpload
          (ExcelUpload.handleFileChange st (Some selected)
             (ExcelParser.parseRows parseRow jsonData)) = None)
  /\ (rejected parseRow jsonData = [] -> jsonData <> [] ->
      exists data,
        ExcelParser.parseRows parseRow jsonData
        = ExcelParser.ParseResult.mk true (Some data) None
        /\ map parseRow jsonData = map ExcelParser.Parsed data
        /\ forall st selected,
             (ExcelUpload.endsWith (ExcelUpload.name selected) ".xlsx"
              || ExcelUpload.endsWith (ExcelUpload.name selected) ".xls")%bool
             = true ->
             ExcelUpload.handleUpload
               (ExcelUpload.handleFileChange st (Some selected)
                  (ExcelParser.parseRows parseRow jsonData))
             = Some (map ExcelUpload.toInsertRow data)).
Proof.
  assert (Hext : forall a b : bool,
             (a || b)%bool = true -> (negb a && negb b)%bool = false)
    by (intros [|] [|]; simpl; congruence).
  unfold ExcelParser.parseRows. rewrite collect_spec.
  cbn [ExcelParser.errors ExcelParser.validProjects].
  split.
  - intros Hbad.
    destruct (rejected parseRow jsonData) as [|ir bad] eqn:E;
      [congruence|].
    simpl. split; [reflexivity|].
    intros st selected Hname. unfold ExcelUpload.handleFileChange.
    rewrite (Hext _ _ Hname). reflexivity.
  - intros Hnone Hrows. rewrite Hnone. simpl.
    pose proof (none_rejected parseRow jsonData 0 Hnone) as Hall.
    exists (accepted parseRow jsonData).
    destruct (accepted parseRow jsonData) as [|project data] eqn:E.
    + destruct jsonData; [congruence | discriminate].
    + simpl. split; [reflexivity|]. split; [exact Hall|].
      intros st selected Hname. unfold ExcelUpload.handleFileChange.
      rewrite (Hext _ _ Hname). reflexivity.
Qed.
End ImportUpload.

Lemma bulk_import_all_or_nothing_witness :
  ExcelParser.ParseResult.success
    (ExcelParser.parseRows ExcelParser.projectSchema_parse Sample.sheetMixed)
  = false
  /\ ExcelUpload.handleUpload
       (ExcelUpload.handleFileChange (ExcelUpload.mkState None [] [])
          (Some Sample.workbook)
          (ExcelParser.parseRows ExcelParser.projectSchema_parse
                                 Sample.sheetMixed)) = None
  /\ exists rows,
       ExcelUpload.handleUpload
         (ExcelUpload.handleFileChange (ExcelUpload.mkState None [] [])
            (Some Sample.workbook)
            (ExcelParser.parseRows ExcelParser.projectSchema_parse
                                   Sample.sheetGood)) = Some rows
       /\ map ExcelUpload.InsertRow.keterangan rows = [None; None]
       /\ map ExcelUpload.InsertRow.product rows
          = [Some "NetApp"; Some "NetApp"].
Proof.
  destruct (bulk_import_all_or_nothing ExcelParser.projectSchema_parse
              Sample.sheetMixed) as [Hbad _].
  destruct (bulk_import_all_or_nothing ExcelParser.projectSchema_parse
              Sample.sheetGood) as [_ Hgood].
  destruct Hbad as [Hres Hup]; [vm_compute; discriminate|].
  destruct Hgood as [data (Hres' & Hmap & Hup')];
    [vm_compute; reflexivity | vm_compute; discriminate|].
  split; [rewrite Hres; reflexivity|].
  split; [apply Hup; reflexivity|].
  exists (map ExcelUpload.toInsertRow data).
  split; [apply Hup'; reflexivity|].
  vm_compute in Hres'. inversion Hres'; subst data. split; reflexivity.
Defined.

(** ** Project codes *)

Lemma left_all (s : string) : Migration.left s (String.length s) = s.
Proof.
  induction s as [|c s IH]; simpl; [reflexivity | rewrite IH; reflexivity].
Qed.

Lemma length_append (s t : string) :
  String.length (s ++ t)%string = (String.length s + String.length t)%nat.
Proof.
  induction s as [|c s IH]; simpl; [reflexivity | rewrite IH; reflexivity].
Qed.

Lemma length_zeros (n : nat) (rest : string) :
  String.length (Migration.cycle n rest "0") = n.
Proof.
  revert rest; induction n as [|n IH]; intros rest; simpl.
  - reflexivity.
  - destruct rest as [|c r]; simpl; rewrite IH; reflexivity.
Qed.

(** Where the number fits, [LPAD] with zeros is the zero-padded number. *)
Lemma LPAD_zeroPadded (width : nat) (n : Z) :
  (String.length (toString n) <= width)%nat ->
  Migration.LPAD (toString n) width "0" = zeroPadded width n
  /\ String.length (zeroPadded width n) = width.
Proof.
  intros Hfit. unfold Migration.LPAD, zeroPadded. split.
  - destruct (Nat.leb_spec width (String.length (toString n))) as [Hle|Hlt].
    + assert (E : width = String.length (toString n)) by lia.
      rewrite E, left_all, Nat.sub_diag. reflexivity.
    + reflexivity.
  - rewrite length_append, length_zeros. lia.
Qed.

Lemma short_decimal (width : nat) (bound : Z) :
  forallb (fun i => Nat.leb (String.length (toString (Z.of_nat i))) width)
          (seq 0 (Z.to_nat bound)) = true ->
  forall n : Z, 0 <= n < bound ->
    (String.length (toString n) <= width)%nat.
Proof.
  intros Hall n Hn. rewrite forallb_forall in Hall.
  specialize (Hall (Z.to_nat n)).
  rewrite Z2Nat.id in Hall by lia.
  apply Nat.leb_le. apply Hall. apply in_seq. lia.
Qed.

Lemma two_digits (n : Z) :
  0 <= n < 100 -> (String.length (toString n) <= 2)%nat.
Proof. apply (short_decimal 2 100). vm_compute. reflexivity. Qed.

Lemma four_digits (n : Z) :
  0 <= n < 10000 -> (String.length (toString n) <= 4)%nat.
Proof. apply (short_decimal 4 10000). vm_compute. reflexivity. Qed.

Lemma generate_pid_in_range (projects : list Migration.Row.t)
    (now : Migration.Timestamp.t) :
  createdInYear projects now < 9999 ->
  Migration.generate_pid projects now
  = ("P" ++ zeroPadded 2 (Migration.Timestamp.year now mod 100)
         ++ zeroPadded 4 (createdInYear projects now + 1))%string
  /\ String.length (zeroPadded 2 (Migration.Timestamp.year now mod 100))
     = 2%nat
  /\ String.length (zeroPadded 4 (createdInYear projects now + 1)) = 4%nat.
Proof.
  intros Hroom.
  assert (Hcount : 0 <= createdInYear projects now)
    by (unfold createdInYear; lia).
  destruct (LPAD_zeroPadded 2 (Migration.Timestamp.year now mod 100))
    as [Hyy Hyylen].
  { apply two_digits. apply Z.mod_pos_bound. lia. }
  destruct (LPAD_zeroPadded 4 (createdInYear projects now + 1))
    as [Hseq Hseqlen].
  { apply four_digits. lia. }
  split; [|split; assumption].
  unfold Migration.generate_pid, Migration.TO_CHAR_YY.
  fold (createdInYear projects now). rewrite Hyy, Hseq. reflexivity.
Qed.

Lemma set_project_pid_blank (projects : list Migration.Row.t)
    (now : Migration.Timestamp.t) (NEW : Migration.Row.t) :
  Migration.Row.pid NEW = None \/ Migration.Row.pid NEW = Some EmptyString ->
  Migration.Row.pid (Migration.set_project_pid projects now NEW)
  = Some ("P" ++ Migration.TO_CHAR_YY now
              ++ Migration.LPAD (toString (createdInYear projects now + 1))
                                4 "0")%string.
Proof.
  unfold Migration.set_project_pid.
  intros [E|E]; rewrite E; reflexivity.
Qed.

(** C8, amended.  An insert with a null or empty [pid] gets ["P"], the two
    digits of the current year and the count of the projects created in the
    current year plus one, zero-padded to four digits, as long as fewer
    than 9999 projects were created in the current year; an insert with a
    non-empty [pid] keeps its row unchanged. *)
Theorem pid_assignment (projects : list Migration.Row.t)
    (now : Migration.Timestamp.t) (NEW : Migration.Row.t) :
  (Migration.Row.pid NEW = None \/ Migration.Row.pid NEW = Some EmptyString ->
   createdInYear projects now < 9999 ->
   Migration.Row.pid (Migration.set_project_pid projects now NEW)
   = Some ("P" ++ zeroPadded 2 (Migration.Timestamp.year now mod 100)
               ++ zeroPadded 4 (createdInYear projects now + 1))%string
   /\ String.length (zeroPadded 2 (Migration.Timestamp.year now mod 100))
      = 2%nat
   /\ String.length (zeroPadded 4 (createdInYear projects now + 1)) = 4%nat)
  /\ (forall p, Migration.Row.pid NEW = Some p -> p <> EmptyString ->
        Migration.set_project_pid projects now NEW = NEW).
Proof.
  split.
  - intros Hblank Hroom.
    destruct (generate_pid_in_range projects now Hroom) as (Hpid & H2 & H4).
    split; [|split; assumption].
    unfold Migration.set_project_pid.
    destruct Hblank as [E|E]; rewrite E; simpl; rewrite Hpid; reflexivity.
  - intros p Hp Hne. unfold Migration.set_project_pid. rewrite Hp.
    destruct (String.eqb_spec p EmptyString) as [E|N]; [contradiction | reflexivity].
Qed.

Lemma pid_assignment_witness :
  Migration.Row.pid
    (Migration.set_project_pid
       (Sample.stored 6 2025 ++ Sample.stored 3 2024) Sample.now2025
       (Migration.Row.mk (Some EmptyString) Sample.now2025))
  = Some "P250007"
  /\ Migration.set_project_pid (Sample.stored 6 2025) Sample.now2025
       (Migration.Row.mk (Some "X-1") Sample.now2025)
     = Migration.Row.mk (Some "X-1") Sample.now2025.
Proof.
  destruct (pid_assignment (Sample.stored 6 2025 ++ Sample.stored 3 2024)
              Sample.now2025 (Migration.Row.mk (Some EmptyString) Sample.now2025))
    as [Hgen _].
  destruct (pid_assignment (Sample.stored 6 2025) Sample.now2025
              (Migration.Row.mk (Some "X-1") Sample.now2025))
    as [_ Hkeep].
  split.
  - destruct Hgen as [Hpid _];
      [right; reflexivity | vm_compute; reflexivity |].
    rewrite Hpid. reflexivity.
  - apply (Hkeep "X-1"); [reflexivity | discriminate].
Defined.

(** C8 as stated fails once 9999 projects were created in the current
    year: the next sequence number is 10000, [LPAD] keeps its first four
    characters, and the assigned code is not the one of that number. *)
Lemma pid_sequence_overflow :
  createdInYear (Sample.stored 9999 2025) Sample.now2025 + 1 = 10000
  /\ Migration.Row.pid
       (Migration.set_project_pid (Sample.stored 9999 2025) Sample.now2025
          (Migration.Row.mk None Sample.now2025))
     = Some "P251000"
  /\ Migration.Row.pid
       (Migration.set_project_pid (Sample.stored 9999 2025) Sample.now2025
          (Migration.Row.mk None Sample.now2025))
     <> Some ("P" ++ zeroPadded 2
                       (Migration.Timestamp.year Sample.now2025 mod 100)
                  ++ zeroPadded 4
                       (createdInYear (Sample.stored 9999 2025)
                                      Sample.now2025 + 1))%string.
Proof.
  assert (Hcount : createdInYear (Sample.stored 9999 2025) Sample.now2025
                   = 9999) by (vm_compute; reflexivity).
  rewrite (set_project_pid_blank (Sample.stored 9999 2025) Sample.now2025
             (Migration.Row.mk None Sample.now2025) (or_introl eq_refl)).
  rewrite Hcount.
  split; [reflexivity|]. split; [reflexivity|].
  vm_compute. discriminate.
Qed.

(** ** Missing and empty keys *)

Section BlankKeys.
Context {K : Type}.
Variable K_eq_dec : forall a b : K, {a = b} + {a <> b}.
Variable keyOf : Project.t -> K.



End BlankKeys.

(** A PIC that is present and not empty is its own grouping key. *)
Lemma hasPic_key (p : Project.t) :
  hasPic p = true -> Project.pic p = Some (picName p).
Proof.
  unfold hasPic, picName. destruct (Project.pic p) as [s|]; simpl;
    [|discriminate].
  destruct (String.eqb s EmptyString); [discriminate | reflexivity].
Qed.






(* ================================================================== *)
(** * Part III: further properties of the same code *)
(* ================================================================== *)

(** ** More on the grouping loop *)

Section GroupLoopMore.
Context {A K V : Type}.
Variable K_eq_dec : forall a b : K, {a = b} + {a <> b}.
Variable keyOf : A -> K.
Variable upd : option V -> A -> V.

Local Abbreviation group := (groupFrom K_eq_dec keyOf upd).
Local Abbreviation keyed := (withKey K_eq_dec keyOf).

(** An entry is in the map exactly when folding the elements of its key
    gives its value. *)
Lemma group_In (l : list A) (k : K) (v : V) :
  In (k, v) (group [] l)
  <-> fold_left (fun o x => Some (upd o x)) (keyed k l) None = Some v.
Proof.
  pose proof (group_get K_eq_dec keyOf upd l [] k) as Hget.
  change (JsMap.get K_eq_dec [] k) with (@None V) in Hget.
  rewrite <- Hget. split.
  - apply get_In. apply group_NoDup. constructor.
  - apply In_get.
Qed.

Lemma keyed_perm (k : K) (l l' : list A) :
  Permutation l l' -> Permutation (keyed k l) (keyed k l').
Proof.
  unfold withKey. induction 1; simpl.
  - constructor.
  - destruct (K_eq_dec (keyOf x) k); [apply perm_skip|]; assumption.
  - destruct (K_eq_dec (keyOf x) k), (K_eq_dec (keyOf y) k);
      try apply perm_swap; try apply perm_skip; apply Permutation_refl.
  - eapply perm_trans; eassumption.
Qed.

(** When the value of a key does not depend on the order of its elements,
    reordering the input reorders the entries at most. *)
Lemma group_perm (l l' : list A)
    (Hupd : forall l1 l2, Permutation l1 l2 ->
        fold_left (fun o x => Some (upd o x)) l1 None
        = fold_left (fun o x => Some (upd o x)) l2 None) :
  Permutation l l' -> Permutation (group [] l) (group [] l').
Proof.
  intros Hperm. apply NoDup_Permutation.
  - apply (NoDup_map_inv fst). apply group_NoDup. constructor.
  - apply (NoDup_map_inv fst). apply group_NoDup. constructor.
  - intros [k v]. rewrite !group_In.
    rewrite (Hupd _ _ (keyed_perm k l l' Hperm)). reflexivity.
Qed.

(** The same loop on values seen through a projection. *)
Lemma group_project {W : Type} (updW : option W -> A -> W) (proj : V -> W)
    (Hproj : forall o x, proj (upd o x) = updW (option_map proj o) x)
    (l : list A) (m : list (K * V)) :
  map (fun e => (fst e, proj (snd e))) (group m l)
  = groupFrom K_eq_dec keyOf updW
      (map (fun e => (fst e, proj (snd e))) m) l.
Proof.
  revert m; induction l as [|x l IH]; intros m.
  - reflexivity.
  - rewrite !group_cons, IH. f_equal.
    assert (Hget : forall k,
               JsMap.get K_eq_dec (map (fun e => (fst e, proj (snd e))) m) k
               = option_map proj (JsMap.get K_eq_dec m k)).
    { intros k. induction m as [|[k0 v0] m IHm]; simpl; [reflexivity|].
      destruct (K_eq_dec k0 k); [reflexivity | apply IHm]. }
    rewrite Hget, <- Hproj.
    generalize (upd (JsMap.get K_eq_dec m (keyOf x)) x). intros v.
    clear. induction m as [|[k0 v0] m IHm]; simpl; [reflexivity|].
    destruct (K_eq_dec k0 (keyOf x)); simpl; [reflexivity|].
    rewrite IHm. reflexivity.
Qed.
End GroupLoopMore.

(** The same loop under an injective renaming of the keys. *)
Section GroupRekey.
Context {A K1 K2 V : Type}.
Variable dec1 : forall a b : K1, {a = b} + {a <> b}.
Variable dec2 : forall a b : K2, {a = b} + {a <> b}.
Variable key1 : A -> K1.
Variable key2 : A -> K2.
Variable rename : K1 -> K2.
Variable upd : option V -> A -> V.
Hypothesis rename_inj : forall a b, rename a = rename b -> a = b.

Local Abbreviation relabel :=
  (map (fun e : K1 * V => (rename (fst e), snd e))).

Lemma get_rekey (m : list (K1 * V)) (k : K1) :
  JsMap.get dec2 (relabel m) (rename k) = JsMap.get dec1 m k.
Proof.
  induction m as [|[k0 v0] m IH]; simpl; [reflexivity|].
  destruct (dec2 (rename k0) (rename k)) as [E|N], (dec1 k0 k) as [E'|N'];
    try reflexivity.
  - exfalso. apply N'. apply rename_inj. exact E.
  - exfalso. apply N. rewrite E'. reflexivity.
  - apply IH.
Qed.

Lemma set_rekey (m : list (K1 * V)) (k : K1) (v : V) :
  JsMap.set dec2 (relabel m) (rename k) v = relabel (JsMap.set dec1 m k v).
Proof.
  induction m as [|[k0 v0] m IH]; simpl; [reflexivity|].
  destruct (dec2 (rename k0) (rename k)) as [E|N], (dec1 k0 k) as [E'|N'];
    simpl; try reflexivity.
  - exfalso. apply N'. apply rename_inj. exact E.
  - exfalso. apply N. rewrite E'. reflexivity.
  - rewrite IH. reflexivity.
Qed.

Lemma group_rekey (l : list A) (m : list (K1 * V)) :
  Forall (fun x => key2 x = rename (key1 x)) l ->
  groupFrom dec2 key2 upd (relabel m) l
  = relabel (groupFrom dec1 key1 upd m l).
Proof.
  intros Hall. revert m. induction Hall as [|x l Hx Hall IH]; intros m.
  - reflexivity.
  - rewrite !group_cons, Hx, get_rekey, set_rekey. apply IH.
Qed.
End GroupRekey.

(** ** More on sorting *)

Section SortMore.
Context {A B : Type}.
Variable f : A -> B.
Variable cmpA : A -> A -> Z.
Variable cmpB : B -> B -> Z.
Hypothesis cmp_f : forall a b, cmpB (f a) (f b) = cmpA a b.

Lemma insert_map (x : A) (l : list A) :
  JsArray.insert cmpB (f x) (map f l) = map f (JsArray.insert cmpA x l).
Proof.
  induction l as [|y l IH]; simpl; [reflexivity|].
  rewrite cmp_f. destruct (cmpA x y <=? 0); simpl; [reflexivity|].
  rewrite IH. reflexivity.
Qed.

Lemma sort_map (l : list A) :
  JsArray.sort cmpB (map f l) = map f (JsArray.sort cmpA l).
Proof.
  induction l as [|x l IH]; simpl; [reflexivity|].
  rewrite IH. apply insert_map.
Qed.

Lemma top_map (n : nat) (l : list A) :
  JsArray.slice 0 n (JsArray.sort cmpB (map f l))
  = map f (JsArray.slice 0 n (JsArray.sort cmpA l)).
Proof.
  unfold JsArray.slice. rewrite sort_map. simpl skipn.
  apply firstn_map.
Qed.
End SortMore.

Lemma sorted_app_dominates {A : Type} (R : A -> A -> Prop)
    (l1 l2 : list A) :
  StronglySorted R (l1 ++ l2) ->
  forall a b, In a l1 -> In b l2 -> R a b.
Proof.
  induction l1 as [|x l1 IH]; simpl; intros Hs a b Ha Hb.
  - contradiction.
  - inversion Hs as [|? ? Hs' Hall]; subst.
    destruct Ha as [E|Ha].
    + subst x. rewrite Forall_forall in Hall. apply Hall.
      apply in_or_app. right. exact Hb.
    + eapply IH; eassumption.
Qed.

Lemma filter_perm {A : Type} (f : A -> bool) (l l' : list A) :
  Permutation l l' -> Permutation (filter f l) (filter f l').
Proof.
  induction 1; simpl.
  - constructor.
  - destruct (f x); [apply perm_skip|]; assumption.
  - destruct (f x), (f y);
      try apply perm_swap; try apply perm_skip; apply Permutation_refl.
  - eapply perm_trans; eassumption.
Qed.

Lemma firstn_NoDup {A : Type} (n : nat) (l : list A) :
  NoDup l -> NoDup (firstn n l).
Proof.
  intros H. rewrite <- (firstn_skipn n l) in H.
  apply NoDup_app_remove_r in H. exact H.
Qed.

Lemma or_string_nonempty (x : option string) (d : string) :
  d <> EmptyString -> or_string x d <> EmptyString.
Proof.
  intros Hd. destruct x as [s|]; simpl; [|exact Hd].
  destruct (String.eqb_spec s EmptyString); assumption.
Qed.

Lemma accUpd_fold_perm (l1 l2 : list Project.t) :
  Permutation l1 l2 ->
  fold_left (fun o x => Some (accUpd o x)) l1 None
  = fold_left (fun o x => Some (accUpd o x)) l2 None.
Proof.
  intros Hperm. rewrite !accUpd_fold.
  pose proof (Permutation_length Hperm) as Hlen.
  pose proof (sumZ_perm _ _ (Permutation_map Project.nett_gp Hperm)) as Hsum.
  destruct l1, l2; try discriminate; [reflexivity|].
  rewrite Hlen, Hsum. reflexivity.
Qed.

Lemma sumUpd_fold_perm (l1 l2 : list Project.t) :
  Permutation l1 l2 ->
  fold_left (fun o x => Some (sumUpd o x)) l1 None
  = fold_left (fun o x => Some (sumUpd o x)) l2 None.
Proof.
  intros Hperm. rewrite !sumUpd_fold.
  pose proof (Permutation_length Hperm) as Hlen.
  pose proof (sumZ_perm _ _ (Permutation_map Project.nett_gp Hperm)) as Hsum.
  destruct l1, l2; try discriminate; [reflexivity|].
  rewrite Hsum. reflexivity.
Qed.

(** ** More on the rankings *)

Section RankingMore.
Context {K : Type}.
Variable K_eq_dec : forall a b : K, {a = b} + {a <> b}.
Variable keyOf : Project.t -> K.

Local Abbreviation ranking := (rankingOf K_eq_dec keyOf).
Local Abbreviation allRanked := (rankedAll K_eq_dec keyOf).

Lemma rankedAll_sorted (projects : list Project.t) :
  StronglySorted (descending Ranking.totalIncome) (allRanked projects).
Proof. apply sort_sorted. Qed.

Lemma ranking_dominates (projects : list Project.t) (a b : Ranking.t K) :
  In a (ranking projects) -> In b (skipn 5 (allRanked projects)) ->
  Ranking.totalIncome a >= Ranking.totalIncome b.
Proof.
  unfold rankingOf. rewrite slice_top. intros Ha Hb.
  pose proof (rankedAll_sorted projects) as Hs.
  rewrite <- (firstn_skipn 5 (allRanked projects)) in Hs.
  exact (sorted_app_dominates _ _ _ Hs a b Ha Hb).
Qed.

Lemma rankedAll_keys (projects : list Project.t) :
  Permutation (map Ranking.key (allRanked projects))
              (map fst (accMap K_eq_dec keyOf projects)).
Proof.
  unfold rankedAll.
  eapply perm_trans.
  - apply Permutation_map. apply (sort_perm Ranking.totalIncome).
  - rewrite map_map. apply Permutation_refl.
Qed.

Lemma rankedAll_covers (projects : list Project.t) (p : Project.t) :
  In p projects ->
  exists e, In e (allRanked projects) /\ Ranking.key e = keyOf p.
Proof.
  intros Hp.
  assert (Hk : In (keyOf p) (map Ranking.key (allRanked projects))).
  { apply (Permutation_in _ (Permutation_sym (rankedAll_keys projects))).
    apply group_keys. right. apply in_map. exact Hp. }
  apply in_map_iff in Hk. destruct Hk as [e [E He]].
  exists e. split; assumption.
Qed.

Lemma ranking_keys_NoDup (projects : list Project.t) :
  NoDup (map Ranking.key (ranking projects)).
Proof.
  unfold rankingOf. rewrite slice_top, <- firstn_map.
  apply firstn_NoDup.
  apply (Permutation_NoDup (Permutation_sym (rankedAll_keys projects))).
  apply accMap_NoDup.
Qed.

Lemma ranking_key_real (projects : list Project.t) (e : Ranking.t K) :
  In e (ranking projects) -> exists p, In p projects /\ keyOf p = Ranking.key e.
Proof.
  intros He. unfold rankingOf, rankedAll in He.
  apply top_In in He. apply in_map_iff in He.
  destruct He as [[k a] [E Hin]]. subst e. simpl.
  apply (in_map fst) in Hin. simpl in Hin.
  apply group_keys in Hin. destruct Hin as [[]|Hin].
  apply in_map_iff in Hin. destruct Hin as [p [E Hp]].
  exists p. split; assumption.
Qed.

Lemma rankedAll_totals (projects : list Project.t) :
  sumZ (map Ranking.totalIncome (allRanked projects))
  = sumZ (map Project.nett_gp projects).
Proof.
  unfold rankedAll.
  rewrite (sumZ_perm _ _
             (Permutation_map Ranking.totalIncome
                (sort_perm Ranking.totalIncome _))).
  rewrite map_map. simpl. apply accMap_totals.
Qed.

Lemma ranking_complete (projects : list Project.t) :
  (distinctKeys K_eq_dec keyOf projects <= 5)%nat ->
  ranking projects = allRanked projects.
Proof.
  intros Hfew. unfold rankingOf. rewrite slice_top.
  apply firstn_all2. unfold rankedAll.
  rewrite sort_length, length_map. unfold accMap.
  rewrite group_length. exact Hfew.
Qed.

Lemma rankedAll_perm (projects projects' : list Project.t) :
  Permutation projects projects' ->
  Permutation (allRanked projects) (allRanked projects').
Proof.
  intros Hperm. unfold rankedAll.
  eapply perm_trans; [apply (sort_perm Ranking.totalIncome)|].
  eapply perm_trans;
    [|apply Permutation_sym, (sort_perm Ranking.totalIncome)].
  apply Permutation_map. unfold accMap.
  apply group_perm; [exact accUpd_fold_perm | exact Hperm].
Qed.
End RankingMore.

(** X1. No group that the cut to five drops has a larger total than an
    entry that is shown, in any of the four rankings; and every record's
    group is in the sorted array the five are cut from. *)
Theorem top_five_dominates (projects : list Project.t) :
  (forall a b,
      In a (Dashboard.topPicsArray projects) ->
      In b (skipn 5 (rankedAll string_dec picName projects)) ->
      Ranking.totalIncome a >= Ranking.totalIncome b)
  /\ (forall a b,
        In a (Dashboard.topProductsArray projects) ->
        In b (skipn 5 (rankedAll string_dec productName projects)) ->
        Ranking.totalIncome a >= Ranking.totalIncome b)
  /\ (forall a b,
        In a (TopPics.fetchRankings projects) ->
        In b (skipn 5 (rankedAll option_string_dec Project.pic projects)) ->
        Ranking.totalIncome a >= Ranking.totalIncome b)
  /\ (forall a b,
        In a (TopProducts.fetchRankings projects) ->
        In b (skipn 5 (productRankedAll projects)) ->
        TopProducts.ProductRanking.totalIncome a
        >= TopProducts.ProductRanking.totalIncome b)
  /\ (forall p, In p projects ->
        (exists e, In e (rankedAll string_dec picName projects)
                   /\ Ranking.key e = picName p)
        /\ (exists e, In e (rankedAll string_dec productName projects)
                      /\ Ranking.key e = productName p)
        /\ (exists e, In e (rankedAll option_string_dec Project.pic projects)
                      /\ Ranking.key e = Project.pic p)).
Proof.
  rewrite topPicsArray_ranking, topProductsArray_ranking, TopPics_ranking.
  split; [|split; [|split; [|split]]].
  - apply ranking_dominates.
  - apply ranking_dominates.
  - apply ranking_dominates.
  - intros a b Ha Hb. rewrite TopProducts_ranking_cut, slice_top in Ha.
    assert (Hs : StronglySorted
                   (descending TopProducts.ProductRanking.totalIncome)
                   (productRankedAll projects))
      by apply (sort_sorted TopProducts.ProductRanking.totalIncome).
    rewrite <- (firstn_skipn 5 (productRankedAll projects)) in Hs.
    exact (sorted_app_dominates _ _ _ Hs a b Ha Hb).
  - intros p Hp. repeat split; apply rankedAll_covers; exact Hp.
Qed.

Lemma top_five_dominates_witness :
  Ranking.totalIncome (Ranking.mk "Vera" 30 1)
  >= Ranking.totalIncome (Ranking.mk "Walt" 20 1).
Proof.
  destruct (top_five_dominates Sample.mixed) as (Hpics & _).
  apply Hpics; vm_compute; auto 10.
Defined.

(** X2. The keys of a ranking are pairwise distinct and each is the key of
    a record; on the dashboard no key is the empty string. *)
Theorem ranking_keys (projects : list Project.t) :
  (NoDup (map Ranking.key (Dashboard.topPicsArray projects))
   /\ forall e, In e (Dashboard.topPicsArray projects) ->
        Ranking.key e <> EmptyString
        /\ exists p, In p projects /\ picName p = Ranking.key e)
  /\ (NoDup (map Ranking.key (Dashboard.topProductsArray projects))
      /\ forall e, In e (Dashboard.topProductsArray projects) ->
           Ranking.key e <> EmptyString
           /\ exists p, In p projects /\ productName p = Ranking.key e)
  /\ (NoDup (map Ranking.key (TopPics.fetchRankings projects))
      /\ forall e, In e (TopPics.fetchRankings projects) ->
           exists p, In p projects /\ Project.pic p = Ranking.key e).
Proof.
  rewrite topPicsArray_ranking, topProductsArray_ranking, TopPics_ranking.
  split; [|split]; (split; [apply ranking_keys_NoDup|]); intros e He;
    apply ranking_key_real in He; destruct He as [p [Hp E]].
  - split; [|exists p; split; assumption].
    rewrite <- E. apply or_string_nonempty. discriminate.
  - split; [|exists p; split; assumption].
    rewrite <- E. apply or_string_nonempty. discriminate.
  - exists p. split; assumption.
Qed.

Lemma ranking_keys_witness :
  Ranking.key (Ranking.mk "N/A" 300 1) <> EmptyString.
Proof.
  destruct (ranking_keys Sample.mixed) as ((_ & Hpics) & _).
  apply (Hpics (Ranking.mk "N/A" 300 1)). vm_compute. auto.
Defined.

(** X3. The PIC groups and the product groups each split the income: an
    entry's total is the sum of its group, the totals of all groups add up
    to the dashboard's total income, and when there are at most five
    distinct keys the ranking that is shown adds up to it. *)
Theorem ranking_income_partition (projects : list Project.t)
    (targetData : option Target.t) :
  (forall e, In e (Dashboard.topPicsArray projects) ->
     Ranking.totalIncome e
     = sumZ (map Project.nett_gp
               (withKey string_dec picName (Ranking.key e) projects)))
  /\ (forall e, In e (Dashboard.topProductsArray projects) ->
        Ranking.totalIncome e
        = sumZ (map Project.nett_gp
                  (withKey string_dec productName (Ranking.key e) projects)))
  /\ sumZ (map Ranking.totalIncome (rankedAll string_dec picName projects))
     = Dashboard.DashboardStats.totalIncome (Dashboard.stats projects targetData)
  /\ sumZ (map Ranking.totalIncome (rankedAll string_dec productName projects))
     = Dashboard.DashboardStats.totalIncome (Dashboard.stats projects targetData)
  /\ ((distinctKeys string_dec picName projects <= 5)%nat ->
      sumZ (map Ranking.totalIncome (Dashboard.topPicsArray projects))
      = Dashboard.DashboardStats.totalIncome
          (Dashboard.stats projects targetData))
  /\ ((distinctKeys string_dec productName projects <= 5)%nat ->
      sumZ (map Ranking.totalIncome (Dashboard.topProductsArray projects))
      = Dashboard.DashboardStats.totalIncome
          (Dashboard.stats projects targetData)).
Proof.
  change (Dashboard.DashboardStats.totalIncome
            (Dashboard.stats projects targetData))
    with (sumNettGp projects).
  rewrite sumNettGp_sumZ, topPicsArray_ranking, topProductsArray_ranking.
  split; [|split; [|split; [|split; [|split]]]].
  - intros e He. apply ranking_entry in He. tauto.
  - intros e He. apply ranking_entry in He. tauto.
  - apply rankedAll_totals.
  - apply rankedAll_totals.
  - intros Hfew. rewrite ranking_complete by exact Hfew.
    apply rankedAll_totals.
  - intros Hfew. rewrite ranking_complete by exact Hfew.
    apply rankedAll_totals.
Qed.

Lemma ranking_income_partition_witness :
  sumZ (map Ranking.totalIncome (Dashboard.topPicsArray Sample.two)) = 300
  /\ Ranking.totalIncome (Ranking.mk "Cisco" 240 2)
     = sumZ (map Project.nett_gp
               (withKey string_dec productName "Cisco" Sample.mixed)).
Proof.
  destruct (ranking_income_partition Sample.two None)
    as (_ & _ & _ & _ & Hfew & _).
  destruct (ranking_income_partition Sample.mixed None)
    as (_ & Hentry & _).
  split.
  - rewrite Hfew; [reflexivity | vm_compute; lia].
  - apply (Hentry (Ranking.mk "Cisco" 240 2)). vm_compute. auto.
Defined.

(** X4. The order in which the store returns the records does not matter
    to the statistics: total income, target, achievement, gap and the
    quarterly entries are the same, and the category entries and the
    ranked groups are the same up to their order. *)
Theorem stats_order_independent (projects projects' : list Project.t)
    (targetData : option Target.t) :
  Permutation projects projects' ->
  Dashboard.DashboardStats.totalIncome (Dashboard.stats projects targetData)
  = Dashboard.DashboardStats.totalIncome (Dashboard.stats projects' targetData)
  /\ Dashboard.DashboardStats.achievement (Dashboard.stats projects targetData)
     = Dashboard.DashboardStats.achievement
         (Dashboard.stats projects' targetData)
  /\ Dashboard.DashboardStats.gap (Dashboard.stats projects targetData)
     = Dashboard.DashboardStats.gap (Dashboard.stats projects' targetData)
  /\ Dashboard.DashboardStats.quarterlyData (Dashboard.stats projects targetData)
     = Dashboard.DashboardStats.quarterlyData
         (Dashboard.stats projects' targetData)
  /\ Permutation
       (Dashboard.DashboardStats.categoryData
          (Dashboard.stats projects targetData))
       (Dashboard.DashboardStats.categoryData
          (Dashboard.stats projects' targetData))
  /\ Permutation (rankedAll string_dec picName projects)
                 (rankedAll string_dec picName projects')
  /\ Permutation (rankedAll string_dec productName projects)
                 (rankedAll string_dec productName projects').
Proof.
  intros Hperm.
  assert (Htotal : sumNettGp projects = sumNettGp projects').
  { rewrite !sumNettGp_sumZ. apply sumZ_perm, Permutation_map, Hperm. }
  unfold Dashboard.stats.
  cbn [Dashboard.DashboardStats.totalIncome
       Dashboard.DashboardStats.achievement Dashboard.DashboardStats.gap
       Dashboard.DashboardStats.quarterlyData
       Dashboard.DashboardStats.categoryData].
  rewrite Htotal.
  split; [reflexivity|]. split; [reflexivity|]. split; [reflexivity|].
  split; [|split; [|split]].
  - unfold Dashboard.quarterlyData. apply map_ext. intros q.
    f_equal. rewrite !quarterIncome_sumZ.
    apply sumZ_perm, Permutation_map, filter_perm, Hperm.
  - unfold Dashboard.categoryData, JsMap.entries.
    apply Permutation_map.
    rewrite (categoryMap_group projects), (categoryMap_group projects').
    apply group_perm; [exact sumUpd_fold_perm | exact Hperm].
  - apply rankedAll_perm, Hperm.
  - apply rankedAll_perm, Hperm.
Qed.

Lemma stats_order_independent_witness :
  Dashboard.DashboardStats.gap
    (Dashboard.stats Sample.two (Some Sample.target200))
  = Dashboard.DashboardStats.gap
      (Dashboard.stats (rev Sample.two) (Some Sample.target200)).
Proof.
  destruct (stats_order_independent Sample.two (rev Sample.two)
              (Some Sample.target200)) as (_ & _ & Hgap & _).
  - simpl. apply perm_swap.
  - exact Hgap.
Defined.

Lemma productMap_summary (projects : list Project.t) :
  map (fun e => (fst e, Acc.mk (TopProducts.ProductAcc.total (snd e))
                               (TopProducts.ProductAcc.count (snd e))))
      (TopProducts.productMap projects)
  = Dashboard.productMap projects.
Proof.
  rewrite productMap_group, TopProducts_productMap_group.
  apply (group_project string_dec productName productUpd accUpd
           (fun a => Acc.mk (TopProducts.ProductAcc.total a)
                            (TopProducts.ProductAcc.count a))).
  intros [a|] x; reflexivity.
Qed.

(** X6. On the same records the dashboard's product ranking is the product
    leaderboard without the per-PIC breakdowns: same products, same order,
    same totals and counts. *)
Theorem product_rankings_agree (projects : list Project.t) :
  Dashboard.topProductsArray projects
  = map summaryOf (TopProducts.fetchRankings projects).
Proof.
  unfold TopProducts.fetchRankings, TopProducts.rankingsArray,
    Dashboard.topProductsArray, JsMap.entries.
  rewrite <- (top_map summaryOf TopProducts.byTotalIncomeDesc
                Dashboard.byTotalIncomeDesc (fun a b => eq_refl)).
  do 2 f_equal. rewrite map_map, <- productMap_summary, map_map.
  apply map_ext. intros [k a]. reflexivity.
Qed.

Lemma picMap_rekey (projects : list Project.t) :
  Forall (fun p => hasPic p = true) projects ->
  TopPics.picMap projects
  = map (fun e => (Some (fst e), snd e)) (Dashboard.picMap projects).
Proof.
  intros Hall. rewrite TopPics_picMap_group, picMap_group. unfold accMap.
  assert (Hinj : forall a b : string, Some a = Some b -> a = b)
    by (intros a b E; inversion E; reflexivity).
  assert (Hkeys : Forall (fun p => Project.pic p = Some (picName p)) projects).
  { eapply Forall_impl; [|exact Hall]. intros p Hp. apply hasPic_key, Hp. }
  exact (group_rekey string_dec option_string_dec picName Project.pic
           (@Some string) accUpd Hinj projects [] Hkeys).
Qed.

(** X7. When every record carries a non-empty PIC, the PIC leaderboard is
    the dashboard's PIC ranking: same names, order, totals and counts. *)
Theorem pic_rankings_agree (projects : list Project.t) :
  Forall (fun p => hasPic p = true) projects ->
  TopPics.fetchRankings projects
  = map asLeaderboardEntry (Dashboard.topPicsArray projects).
Proof.
  intros Hall.
  unfold TopPics.fetchRankings, TopPics.rankingsArray,
    Dashboard.topPicsArray, JsMap.entries.
  rewrite <- (top_map asLeaderboardEntry Dashboard.byTotalIncomeDesc
                Dashboard.byTotalIncomeDesc (fun a b => eq_refl)).
  do 2 f_equal. rewrite map_map, (picMap_rekey projects Hall), map_map.
  apply map_ext. intros [k a]. reflexivity.
Qed.

Lemma pic_rankings_agree_witness :
  TopPics.fetchRankings Sample.two
  = [Ranking.mk (Some "Yuri") 200 1; Ranking.mk (Some "Xena") 100 1].
Proof.
  rewrite (pic_rankings_agree Sample.two).
  - reflexivity.
  - repeat constructor.
Defined.

(** ** More on the report filter *)

Lemma applyFilters_selected (projects : list Project.t) (year : Z)
    (quarter category : string) :
  Reports.applyFilters projects (toString year) quarter category
  = filter (selected year quarter category) projects.
Proof.
  unfold Reports.applyFilters, selected.
  destruct (String.eqb quarter "all"), (String.eqb category "all"); simpl;
    rewrite ?filter_filter; apply filter_ext; intros p;
    rewrite toString_eqb;
    destruct (Project.year p =? year); simpl;
    rewrite ?andb_true_r; reflexivity.
Qed.

Lemma Reports_totalIncome_sumZ (l : list Project.t) :
  Reports.totalIncome l = sumZ (map Project.nett_gp l).
Proof.
  unfold Reports.totalIncome, JsArray.reduce.
  rewrite fold_left_add_shift. lia.
Qed.

Lemma selected_quarter (projects : list Project.t) (year : Z)
    (quarter category : string) :
  String.eqb quarter "all" = false ->
  filter (selected year quarter category) projects
  = filter (fun p => String.eqb (Project.quarter p) quarter)
           (filter (selected year "all" category) projects).
Proof.
  intros Hq. rewrite filter_filter. apply filter_ext. intros p.
  unfold selected. rewrite Hq. simpl.
  destruct (Project.year p =? year),
    (String.eqb (Project.quarter p) quarter),
    (String.eqb category "all" || String.eqb (Project.category p) category)%bool;
    reflexivity.
Qed.

(** X8. The report's total for a year and a quarter, over all categories,
    is the quarterly income the dashboard shows for that year, and the
    report's total for the whole year is the dashboard's total income. *)
Theorem report_matches_dashboard (store : list Project.t) (year : Z)
    (quarter : string) (targetData : option Target.t) :
  String.eqb quarter "all" = false ->
  Reports.totalIncome
    (Reports.applyFilters store (toString year) quarter "all")
  = Dashboard.quarterIncome (ofYear year store) quarter
  /\ Reports.totalIncome
       (Reports.applyFilters store (toString year) "all" "all")
     = Dashboard.DashboardStats.totalIncome
         (Dashboard.stats (ofYear year store) targetData).
Proof.
  intros Hq.
  assert (Hyear : filter (selected year "all" "all") store
                  = ofYear year store).
  { unfold ofYear. apply filter_ext. intros p. unfold selected. simpl.
    rewrite !andb_true_r. reflexivity. }
  rewrite !applyFilters_selected, !Reports_totalIncome_sumZ. split.
  - rewrite (selected_quarter store year quarter "all" Hq), Hyear.
    symmetry. apply quarterIncome_sumZ.
  - rewrite Hyear. symmetry. apply sumNettGp_sumZ.
Qed.

Lemma report_matches_dashboard_witness :
  Reports.totalIncome (Reports.applyFilters Sample.mixed "2025" "Q2" "all")
  = 230.
Proof.
  change "2025" with (toString 2025).
  destruct (report_matches_dashboard Sample.mixed 2025 "Q2" None) as [H _].
  - reflexivity.
  - rewrite H. reflexivity.
Defined.

(** X9. When the quarter of every record is one of Q1..Q4, the report's
    totals for the four quarters add up to its total for all quarters,
    whatever year and category are selected. *)
Theorem report_quarters_add_up (store : list Project.t) (year : Z)
    (category : string) :
  Forall (fun p => In (Project.quarter p) Dashboard.quarters) store ->
  Reports.totalIncome (Reports.applyFilters store (toString year) "Q1" category)
  + Reports.totalIncome
      (Reports.applyFilters store (toString year) "Q2" category)
  + Reports.totalIncome
      (Reports.applyFilters store (toString year) "Q3" category)
  + Reports.totalIncome
      (Reports.applyFilters store (toString year) "Q4" category)
  = Reports.totalIncome
      (Reports.applyFilters store (toString year) "all" category).
Proof.
  intros Hall.
  rewrite !applyFilters_selected, !Reports_totalIncome_sumZ.
  rewrite (selected_quarter store year "Q1" category eq_refl),
    (selected_quarter store year "Q2" category eq_refl),
    (selected_quarter store year "Q3" category eq_refl),
    (selected_quarter store year "Q4" category eq_refl).
  rewrite <- !quarterIncome_sumZ. apply quarters_partition.
  rewrite Forall_forall in *. intros p Hp. apply Hall.
  apply filter_In in Hp. tauto.
Qed.

Lemma report_quarters_add_up_witness :
  Reports.totalIncome (Reports.applyFilters Sample.mixed "2025" "Q1" "LSC")
  + Reports.totalIncome (Reports.applyFilters Sample.mixed "2025" "Q2" "LSC")
  + Reports.totalIncome (Reports.applyFilters Sample.mixed "2025" "Q3" "LSC")
  + Reports.totalIncome (Reports.applyFilters Sample.mixed "2025" "Q4" "LSC")
  = 120.
Proof.
  change "2025" with (toString 2025).
  rewrite (report_quarters_add_up Sample.mixed 2025 "LSC").
  - reflexivity.
  - unfold Sample.mixed.
    repeat (apply Forall_cons; [simpl; auto 6|]). apply Forall_nil.
Defined.

(** ** The CSV export of the report *)

Lemma countChar_app (c : ascii) (a b : string) :
  countChar c (a ++ b)%string = (countChar c a + countChar c b)%nat.
Proof.
  induction a as [|x a IH]; simpl; [reflexivity | rewrite IH; lia].
Qed.

Lemma splitOn_length (sep : ascii) (s : string) :
  List.length (splitOn sep s) = S (countChar sep s).
Proof.
  induction s as [|c s IH]; simpl; [reflexivity|].
  destruct (Ascii.eqb c sep); simpl; [rewrite IH; reflexivity|].
  destruct (splitOn sep s) as [|w ws]; simpl in *; [discriminate | exact IH].
Qed.

Lemma splitOn_free (sep : ascii) (x : string) :
  countChar sep x = O -> splitOn sep x = [x].
Proof.
  induction x as [|c x IH]; simpl; intros H; [reflexivity|].
  destruct (Ascii.eqb c sep); [discriminate|].
  rewrite IH by exact H. reflexivity.
Qed.

Lemma splitOn_free_app (sep : ascii) (x rest : string) :
  countChar sep x = O ->
  splitOn sep (x ++ String sep rest)%string = x :: splitOn sep rest.
Proof.
  induction x as [|c x IH]; simpl; intros H.
  - rewrite Ascii.eqb_refl. reflexivity.
  - destruct (Ascii.eqb c sep); [discriminate|].
    rewrite IH by exact H. reflexivity.
Qed.

(** Splitting what [join] made gives the parts back, when no part holds
    the separator. *)
Lemma split_join (sep : ascii) (parts : list string) :
  parts <> [] ->
  Forall (fun x => countChar sep x = O) parts ->
  splitOn sep (JsArray.join (String sep EmptyString) parts) = parts.
Proof.
  intros Hne Hall. induction Hall as [|x parts Hx Hall IH];
    [congruence|].
  destruct parts as [|y parts].
  - simpl. apply splitOn_free, Hx.
  - change (JsArray.join (String sep EmptyString) (x :: y :: parts))
      with (x ++ String sep
                   (JsArray.join (String sep EmptyString) (y :: parts)))%string.
    rewrite splitOn_free_app by exact Hx.
    rewrite IH by discriminate. reflexivity.
Qed.

Lemma countChar_join (c sep : ascii) (parts : list string) :
  countChar c (JsArray.join (String sep EmptyString) parts)
  = (list_sum (map (countChar c) parts)
     + (if Ascii.eqb sep c then 1 else 0) * (List.length parts - 1))%nat.
Proof.
  induction parts as [|x parts IH];
    [simpl; destruct (Ascii.eqb sep c); reflexivity|].
  destruct parts as [|y parts].
  - simpl. lia.
  - change (JsArray.join (String sep EmptyString) (x :: y :: parts))
      with (x ++ String sep
                   (JsArray.join (String sep EmptyString) (y :: parts)))%string.
    rewrite countChar_app. cbn [countChar]. rewrite IH.
    cbn [map list_sum fold_right List.length].
    destruct (Ascii.eqb sep c); lia.
Qed.

Lemma list_sum_zero {A : Type} (f : A -> nat) (l : list A) :
  Forall (fun x => f x = O) l -> list_sum (map f l) = O.
Proof.
  induction 1 as [|x l Hx Hall IH]; simpl; [reflexivity | lia].
Qed.

Lemma uint_text_free (c : ascii) (d : Decimal.uint) :
  In c [","%char; "010"%char] ->
  countChar c (NilEmpty.string_of_uint d) = O.
Proof.
  intros [E|[E|[]]]; subst c; induction d; simpl; auto.
Qed.

(** The decimal text of an integer holds no comma and no line break. *)
Lemma toString_free (c : ascii) (n : Z) :
  In c [","%char; "010"%char] -> countChar c (toString n) = O.
Proof.
  intros Hc. unfold toString.
  assert (Hu : forall d, countChar c (NilZero.string_of_uint d) = O).
  { intros d. destruct d; try apply (uint_text_free c _ Hc).
    destruct Hc as [E|[E|[]]]; subst c; reflexivity. }
  destruct (Z.to_int n) as [d|d]; simpl.
  - apply Hu.
  - rewrite Hu. destruct Hc as [E|[E|[]]]; subst c; reflexivity.
Qed.

Lemma or_string_textOf (x : option string) :
  or_string x EmptyString = textOf x.
Proof.
  destruct x as [s|]; simpl; [|reflexivity].
  destruct (String.eqb_spec s EmptyString); congruence.
Qed.

Lemma csvData_texts (l : list Project.t) :
  map (map Reports.cellText) (Reports.csvData l)
  = map (fun p =>
           [ Project.pid p; Project.business_partner p; Project.end_user p;
             Project.category p; textOf (Project.product p);
             textOf (Project.pic p); toString (Project.nett_gp p);
             Project.quarter p; toString (Project.year p) ]) l.
Proof.
  unfold Reports.csvData. rewrite map_map. apply map_ext. intros p.
  cbn [map Reports.cellText]. rewrite or_string_textOf.
  destruct (Project.pic p); reflexivity.
Qed.

Lemma csv_cells_free (c : ascii) (p : Project.t) :
  In c [","%char; "010"%char] ->
  Forall (fun s => countChar c s = O) (csvTexts p) ->
  Forall (fun s => countChar c s = O)
    [ Project.pid p; Project.business_partner p; Project.end_user p;
      Project.category p; textOf (Project.product p);
      textOf (Project.pic p); toString (Project.nett_gp p);
      Project.quarter p; toString (Project.year p) ].
Proof.
  intros Hc Hall. unfold csvTexts in Hall.
  rewrite Forall_forall in *. intros s Hs. simpl in Hs.
  destruct Hs as [E|[E|[E|[E|[E|[E|[E|[E|[E|[]]]]]]]]]]; subst s;
    try (apply Hall; simpl; tauto); apply toString_free, Hc.
Qed.

Lemma split_cells (table : list (list string)) :
  Forall (fun cells => cells <> []) table ->
  Forall (Forall (fun s => countChar ","%char s = O)) table ->
  map (fun cells => splitOn ","%char (JsArray.join "," cells)) table = table.
Proof.
  intros Hwidth Hfree. induction table as [|cells table IH]; [reflexivity|].
  inversion Hwidth; subst. inversion Hfree; subst.
  cbn [map]. rewrite (split_join ","%char cells) by assumption.
  f_equal. apply IH; assumption.
Qed.

(** X10. For a non-empty filtered list whose texts hold no comma and no
    line break, the exported CSV read back (split into lines, each line
    split at the commas) is the header row followed by the nine values of
    every record, in order. *)
Theorem csv_round_trip (filteredProjects : list Project.t)
    (year quarter category : string) :
  filteredProjects <> [] ->
  Forall (fun p =>
            Forall (fun s => countChar ","%char s = O) (csvTexts p)
            /\ Forall (fun s => countChar "010"%char s = O) (csvTexts p))
         filteredProjects ->
  exists csv,
    Reports.exportToCSV filteredProjects year quarter category
    = Reports.Download
        ("projects-report-" ++ year ++ "-" ++ quarter ++ "-"
         ++ category ++ ".csv")%string csv
    /\ map (splitOn ","%char) (splitOn "010"%char csv)
       = Reports.headers
         :: map (map Reports.cellText) (Reports.csvData filteredProjects).
Proof.
  intros Hne Hsafe. unfold Reports.exportToCSV.
  destruct filteredProjects as [|p0 rest] eqn:El; [congruence|].
  rewrite <- El in *. clear Hne.
  replace (Nat.eqb (List.length filteredProjects) 0) with false
    by (rewrite El; reflexivity).
  eexists. split; [reflexivity|].
  set (rows := map Reports.Text Reports.headers
               :: Reports.csvData filteredProjects).
  assert (Htexts : map (map Reports.cellText) rows
                   = Reports.headers
                     :: map (map Reports.cellText)
                            (Reports.csvData filteredProjects)).
  { unfold rows. cbn [map]. f_equal. }
  assert (Hfree : forall c, In c [","%char; "010"%char] ->
            Forall (Forall (fun s => countChar c s = O))
                   (map (map Reports.cellText) rows)).
  { intros c Hc. rewrite Htexts. constructor.
    - destruct Hc as [E|[E|[]]]; subst c; repeat constructor.
    - rewrite csvData_texts. apply Forall_forall. intros cells Hcells.
      apply in_map_iff in Hcells. destruct Hcells as [p [E Hp]]. subst cells.
      rewrite Forall_forall in Hsafe. specialize (Hsafe p Hp).
      apply csv_cells_free; [exact Hc|].
      destruct Hc as [E|[E|[]]]; subst c; tauto. }
  assert (Hwidth : Forall (fun cells => cells <> [])
                          (map (map Reports.cellText) rows)).
  { rewrite Htexts. constructor; [discriminate|].
    rewrite csvData_texts. apply Forall_forall. intros cells Hcells.
    apply in_map_iff in Hcells. destruct Hcells as [p [E Hp]]. subst cells.
    discriminate. }
  rewrite <- Htexts.
  change Reports.newline with (String "010"%char EmptyString).
  rewrite split_join.
  - rewrite map_map.
    rewrite <- (map_map (map Reports.cellText)
                  (fun cells => splitOn ","%char (JsArray.join "," cells))).
    apply split_cells; [exact Hwidth|].
    exact (Hfree ","%char (or_introl eq_refl)).
  - unfold rows. discriminate.
  - pose proof (Hfree "010"%char (or_intror (or_introl eq_refl))) as Hnl.
    rewrite <- (map_map (map Reports.cellText)
                  (fun cells => JsArray.join "," cells)).
    apply Forall_forall. intros line Hline.
    apply in_map_iff in Hline. destruct Hline as [cells [E Hcells]].
    subst line. rewrite Forall_forall in Hnl. specialize (Hnl cells Hcells).
    rewrite (countChar_join "010"%char ","%char). simpl.
    rewrite Nat.add_0_r. apply list_sum_zero, Hnl.
Qed.

Lemma csv_round_trip_witness :
  exists csv,
    Reports.exportToCSV Sample.two "2025" "all" "all"
    = Reports.Download "projects-report-2025-all-all.csv" csv
    /\ List.length (splitOn "010"%char csv) = 3%nat.
Proof.
  destruct (csv_round_trip Sample.two "2025" "all" "all")
    as [csv [Hcsv Hback]].
  - discriminate.
  - repeat constructor.
  - exists csv. split; [exact Hcsv|].
    apply (f_equal (@List.length _)) in Hback.
    rewrite length_map in Hback. exact Hback.
Defined.

(** X11. The export never quotes a value: the line of a record splits at
    the commas into nine fields plus one more for every comma inside its
    texts; and nothing is exported for an empty list. *)
Theorem csv_fields_per_line (p : Project.t) (row : list Reports.Cell)
    (year quarter category : string) :
  In row (Reports.csvData [p]) ->
  List.length
    (splitOn ","%char (JsArray.join "," (map Reports.cellText row)))
  = (9 + list_sum (map (countChar ","%char) (csvTexts p)))%nat
  /\ Reports.exportToCSV [] year quarter category = Reports.NoData.
Proof.
  intros Hrow. split; [|reflexivity].
  assert (Hcells : map Reports.cellText row
                   = [ Project.pid p; Project.business_partner p;
                       Project.end_user p; Project.category p;
                       textOf (Project.product p); textOf (Project.pic p);
                       toString (Project.nett_gp p); Project.quarter p;
                       toString (Project.year p) ]).
  { apply (in_map (map Reports.cellText)) in Hrow.
    rewrite csvData_texts in Hrow. simpl in Hrow.
    destruct Hrow as [E|[]]. symmetry. exact E. }
  rewrite Hcells, splitOn_length.
  rewrite (countChar_join ","%char ","%char), Ascii.eqb_refl.
  cbn [map list_sum fold_right List.length csvTexts].
  rewrite !(toString_free ","%char) by (left; reflexivity).
  lia.
Qed.

Lemma csv_fields_per_line_witness :
  List.length
    (splitOn ","%char
       (JsArray.join ","
          (map Reports.cellText
             [ Reports.Text "P250001"; Reports.Text "Acme, Inc.";
               Reports.Text "ABC Company"; Reports.Text "LSC";
               Reports.Text "NetApp"; Reports.Text "Xena";
               Reports.Number 100; Reports.Text "Q1";
               Reports.Number 2025 ])))
  = 10%nat.
Proof.
  destruct (csv_fields_per_line
              (Project.mk "P250001" "Acme, Inc." "ABC Company" "LSC"
                          (Some "NetApp") (Some "Xena") 100 "Q1" 2025)
              [ Reports.Text "P250001"; Reports.Text "Acme, Inc.";
                Reports.Text "ABC Company"; Reports.Text "LSC";
                Reports.Text "NetApp"; Reports.Text "Xena";
                Reports.Number 100; Reports.Text "Q1";
                Reports.Number 2025 ]
              "2025" "all" "all") as [H _].
  - left. reflexivity.
  - rewrite H. reflexivity.
Defined.

(** ** The SQL export of the backup *)

Lemma literalBody_doubled (s : string) :
  literalBody false
    (Backup.doubleApostrophes s ++ String Backup.apostrophe EmptyString)
  = Some (s, EmptyString).
Proof.
  induction s as [|c s IH]; [reflexivity|].
  cbn [Backup.doubleApostrophes].
  destruct (Ascii.eqb c Backup.apostrophe) eqn:E.
  - change (literalBody true
              (String Backup.apostrophe
                 (Backup.doubleApostrophes s
                  ++ String Backup.apostrophe EmptyString))
            = Some (String c s, EmptyString)).
    change (option_map
              (fun vr => (String Backup.apostrophe (fst vr), snd vr))
              (literalBody false
                 (Backup.doubleApostrophes s
                  ++ String Backup.apostrophe EmptyString))
            = Some (String c s, EmptyString)).
    rewrite IH. apply Ascii.eqb_eq in E. subst c. reflexivity.
  - cbn [append literalBody]. rewrite E, IH. reflexivity.
Qed.

Lemma literalBody_plain (s : string) :
  countChar Backup.apostrophe s = O ->
  literalBody false (s ++ String Backup.apostrophe EmptyString)
  = Some (s, EmptyString).
Proof.
  induction s as [|c s IH]; [reflexivity|].
  cbn [countChar append literalBody].
  destruct (Ascii.eqb c Backup.apostrophe); [discriminate|].
  intros H. rewrite IH by exact H. reflexivity.
Qed.

(** What a constant is read as accounts for every character of it. *)
Lemma literalBody_length (s : string) :
  forall (saw : bool) (value rest : string),
    literalBody saw s = Some (value, rest) ->
    (String.length s + (if saw then 1 else 0)
     = String.length value + countChar Backup.apostrophe value
       + 1 + String.length rest)%nat.
Proof.
  induction s as [|c s IH]; intros saw value rest H.
  - destruct saw; simpl in H; [|discriminate].
    inversion H. reflexivity.
  - cbn [literalBody] in H. destruct saw.
    + destruct (Ascii.eqb c Backup.apostrophe) eqn:E.
      * destruct (literalBody false s) as [[v r]|] eqn:Eb; [|discriminate].
        simpl in H. inversion H; subst.
        apply IH in Eb. cbn [String.length countChar].
        rewrite Ascii.eqb_refl. lia.
      * inversion H; subst. cbn [String.length countChar]. lia.
    + destruct (Ascii.eqb c Backup.apostrophe) eqn:E.
      * apply IH in H. cbn [String.length]. lia.
      * destruct (literalBody false s) as [[v r]|] eqn:Eb; [|discriminate].
        simpl in H. inversion H; subst.
        apply IH in Eb. cbn [String.length countChar]. rewrite E. lia.
Qed.

Lemma readLiteral_open (s : string) :
  readLiteral (Backup.quoted s)
  = literalBody false (s ++ String Backup.apostrophe EmptyString).
Proof. reflexivity. Qed.

Lemma readLiteral_escaped (x : option string) :
  readLiteral (Backup.escaped x) = Some (textOf x, EmptyString).
Proof.
  unfold Backup.escaped. rewrite readLiteral_open.
  destruct x as [s|]; [|reflexivity].
  cbn [option_map or_string textOf].
  destruct (String.eqb_spec (Backup.doubleApostrophes s) EmptyString)
    as [E|N].
  - destruct s as [|c s]; [reflexivity|].
    cbn [Backup.doubleApostrophes] in E.
    destruct (Ascii.eqb c Backup.apostrophe); discriminate.
  - apply literalBody_doubled.
Qed.

Lemma readLiteral_quoted (s : string) :
  readLiteral (Backup.quoted s) = Some (s, EmptyString)
  <-> countChar Backup.apostrophe s = O.
Proof.
  rewrite readLiteral_open. split.
  - intros H. apply literalBody_length in H.
    rewrite length_append in H. simpl in H. lia.
  - apply literalBody_plain.
Qed.

Section ExportFacts.
Variable numberText : Q -> string.

(** X12. In the SQL script the values of a project's business partner, end
    user, product and note, and of a profile's full name, are string
    constants that read back as the stored text (the empty text for a
    missing one), whatever apostrophes the text holds. *)
Theorem sql_escaped_values_round_trip (project : Backup.ProjectRow.t)
    (profile : Backup.ProfileRow.t) :
  (forall i x,
      In (i, x) [ (2%nat, Backup.ProjectRow.business_partner project);
                  (3%nat, Backup.ProjectRow.end_user project);
                  (5%nat, Backup.ProjectRow.product project);
                  (11%nat, Backup.ProjectRow.keterangan project) ] ->
      exists constant,
        nth_error (Backup.projectValues numberText project) i = Some constant
        /\ readLiteral constant = Some (textOf x, EmptyString))
  /\ exists constant,
       nth_error (Backup.profileValues profile) 2 = Some constant
       /\ readLiteral constant
          = Some (textOf (Backup.ProfileRow.full_name profile), EmptyString).
Proof.
  split.
  - intros i x Hin. simpl in Hin.
    destruct Hin as [E|[E|[E|[E|[]]]]]; inversion E; subst;
      eexists; (split; [reflexivity | apply readLiteral_escaped]).
  - eexists. split; [reflexivity | apply readLiteral_escaped].
Qed.

(** X13. The values of a project's code, category, PIC and quarter and of
    a profile's e-mail are written between apostrophes as they are: such a
    constant reads back as the stored text exactly when the text holds no
    apostrophe. *)
Theorem sql_plain_values_round_trip_iff (project : Backup.ProjectRow.t)
    (profile : Backup.ProfileRow.t) :
  (forall i s,
      In (i, s) [ (1%nat, Backup.ProjectRow.pid project);
                  (4%nat, Backup.ProjectRow.category project);
                  (7%nat, Backup.ProjectRow.pic project);
                  (9%nat, Backup.ProjectRow.quarter project) ] ->
      exists constant,
        nth_error (Backup.projectValues numberText project) i = Some constant
        /\ (readLiteral constant = Some (s, EmptyString)
            <-> countChar Backup.apostrophe s = O))
  /\ exists constant,
       nth_error (Backup.profileValues profile) 1 = Some constant
       /\ (readLiteral constant
           = Some (Backup.ProfileRow.email profile, EmptyString)
           <-> countChar Backup.apostrophe (Backup.ProfileRow.email profile)
               = O).
Proof.
  split.
  - intros i s Hin. simpl in Hin.
    destruct Hin as [E|[E|[E|[E|[]]]]]; inversion E; subst;
      eexists; (split; [reflexivity | apply readLiteral_quoted]).
  - eexists. split; [reflexivity | apply readLiteral_quoted].
Qed.
End ExportFacts.

Lemma sql_escaped_values_round_trip_witness :
  readLiteral (Backup.escaped (Some "O'Neil & Co"))
  = Some ("O'Neil & Co", EmptyString).
Proof.
  destruct (sql_escaped_values_round_trip Sample.wholeText
              Sample.backupProject Sample.backupProfile) as [Hproject _].
  destruct (Hproject 2%nat (Some "O'Neil & Co")) as [constant [Hnth Hread]].
  - left. reflexivity.
  - inversion Hnth; subst. exact Hread.
Defined.

Lemma sql_plain_values_round_trip_iff_witness :
  readLiteral (Backup.quoted "D'Arcy") <> Some ("D'Arcy", EmptyString).
Proof.
  destruct (sql_plain_values_round_trip_iff Sample.wholeText
              Sample.backupProject Sample.backupProfile) as [Hproject _].
  destruct (Hproject 7%nat "D'Arcy") as [constant [Hnth Hiff]].
  - right. right. left. reflexivity.
  - inversion Hnth; subst. intros H. apply Hiff in H. discriminate H.
Defined.

(** ** The backup *)

Lemma lengthOrZero_length {A : Type} (rows : option (list A)) :
  Backup.lengthOrZero rows = Z.of_nat (List.length (or_object rows [])).
Proof.
  unfold Backup.lengthOrZero. rewrite or_number_zero.
  destruct rows; reflexivity.
Qed.

(** X14. A backup is produced exactly when none of the three queries
    reports an error; its record count is the number of rows it holds
    (projects, targets and profiles together), a query without data counts
    as no rows, and its time stamp is the one given. *)
Theorem backup_counts_its_rows
    (projectsQ : Backup.QueryResult Backup.ProjectRow.t)
    (targetsQ : Backup.QueryResult Backup.TargetRow.t)
    (profilesQ : Backup.QueryResult Backup.ProfileRow.t) (now : string) :
  (Backup.backupDatabase projectsQ targetsQ profilesQ now = None
   <-> Backup.error projectsQ <> None \/ Backup.error targetsQ <> None
       \/ Backup.error profilesQ <> None)
  /\ forall backup,
       Backup.backupDatabase projectsQ targetsQ profilesQ now = Some backup ->
       Backup.totalRecords (Backup.metadata backup)
       = Z.of_nat (List.length (Backup.projects backup)
                   + List.length (Backup.targets backup)
                   + List.length (Backup.profiles backup))
       /\ Backup.projects backup = or_object (Backup.data projectsQ) []
       /\ Backup.targets backup = or_object (Backup.data targetsQ) []
       /\ Backup.profiles backup = or_object (Backup.data profilesQ) []
       /\ Backup.timestamp backup = now.
Proof.
  unfold Backup.backupDatabase.
  destruct (Backup.error projectsQ), (Backup.error targetsQ),
    (Backup.error profilesQ); split;
    try (split; [intros _; auto; try (left; discriminate);
                 try (right; left; discriminate);
                 try (right; right; discriminate)
                | reflexivity]);
    try (intros backup H; discriminate H).
  - split; [discriminate | intros [H|[H|H]]; congruence].
  - intros backup H. inversion H; subst. clear H.
    cbn [Backup.metadata Backup.totalRecords Backup.projects Backup.targets
         Backup.profiles Backup.timestamp].
    rewrite !lengthOrZero_length. repeat split. lia.
Qed.

Lemma backup_counts_its_rows_witness :
  exists backup,
    Backup.backupDatabase
      (Backup.mkQuery (Some [Sample.backupProject]) None)
      (Backup.mkQuery None None)
      (Backup.mkQuery (Some [Sample.backupProfile]) None)
      "2025-06-01T00:00:00.000Z" = Some backup
    /\ Backup.totalRecords (Backup.metadata backup) = 2.
Proof.
  destruct (backup_counts_its_rows
              (Backup.mkQuery (Some [Sample.backupProject]) None)
              (Backup.mkQuery None None)
              (Backup.mkQuery (Some [Sample.backupProfile]) None)
              "2025-06-01T00:00:00.000Z") as [_ Hsome].
  eexists. split; [reflexivity|].
  destruct (Hsome _ eq_refl) as (Htotal & _). rewrite Htotal. reflexivity.
Defined.

(** ** Inserting into the store *)

Lemma code_taken_spec (projects : list Migration.Row.t) (code : string) :
  Migration.pidTaken projects code = true
  <-> In (Some code) (map Migration.Row.pid projects).
Proof.
  unfold Migration.pidTaken. rewrite existsb_exists, in_map_iff. split.
  - intros [r [Hr Hq]]. exists r. split; [|exact Hr].
    destruct (Migration.Row.pid r) as [q|]; [|discriminate].
    apply String.eqb_eq in Hq. subst q. reflexivity.
  - intros [r [E Hr]]. exists r. split; [exact Hr|].
    rewrite E. apply String.eqb_refl.
Qed.

(** A row that meets the constraints has a code that no stored row holds. *)
Lemma constraints_pid (profiles : list string)
    (projects : list Migration.ProjectsRow.t) (row : Migration.ProjectsRow.t) :
  Migration.constraints profiles projects row = true ->
  exists code,
    Migration.Row.pid (Migration.ProjectsRow.core row) = Some code
    /\ Migration.pidTaken (map Migration.ProjectsRow.core projects) code
       = false.
Proof.
  unfold Migration.constraints.
  destruct (Migration.Row.pid (Migration.ProjectsRow.core row)) as [code|];
    intros Ec.
  2: { rewrite andb_false_r in Ec. discriminate Ec. }
  repeat (apply andb_prop in Ec; destruct Ec as [Ec ?]).
  exists code. split; [reflexivity|].
  match goal with
  | Hfree : negb _ = true |- _ => apply negb_true_iff in Hfree; exact Hfree
  end.
Qed.

(** X15. An insert that succeeds appends one row, the one the trigger
    returned, and leaves the stored rows as they were, and it keeps the
    store's invariant: every row has a code and no two rows share one. *)
Theorem insert_keeps_codes_unique (role : Migration.Role)
    (profiles : list string)
    (projects store : list Migration.ProjectsRow.t)
    (now : Migration.Timestamp.t) (NEW : Migration.ProjectsRow.t) :
  NoDup (map (fun r => Migration.Row.pid (Migration.ProjectsRow.core r))
             projects) ->
  (forall r, In r projects ->
     Migration.Row.pid (Migration.ProjectsRow.core r) <> None) ->
  Migration.insert role profiles projects now NEW = Some store ->
  store
  = projects
    ++ [Migration.ProjectsRow.with_core NEW
          (Migration.set_project_pid
             (map Migration.ProjectsRow.core projects) now
             (Migration.ProjectsRow.core NEW))]
  /\ NoDup (map (fun r => Migration.Row.pid (Migration.ProjectsRow.core r))
                store)
  /\ (forall r, In r store ->
        Migration.Row.pid (Migration.ProjectsRow.core r) <> None).
Proof.
  intros Hnd Hcodes Hins. unfold Migration.insert in Hins.
  destruct role; [discriminate|].
  set (row := Migration.ProjectsRow.with_core NEW
                (Migration.set_project_pid
                   (map Migration.ProjectsRow.core projects) now
                   (Migration.ProjectsRow.core NEW))) in *.
  destruct (Migration.constraints profiles projects row) eqn:Ec;
    [|discriminate].
  inversion Hins; subst store. clear Hins.
  destruct (constraints_pid _ _ _ Ec) as [code [E Hfree]].
  split; [reflexivity|]. split.
  - rewrite map_app. cbn [map]. rewrite E.
    apply (Permutation_NoDup
             (l := Some code
                   :: map (fun r => Migration.Row.pid
                                      (Migration.ProjectsRow.core r))
                          projects)).
    + apply Permutation_cons_append.
    + constructor; [|exact Hnd].
      intros Hin. rewrite <- (map_map Migration.ProjectsRow.core) in Hin.
      apply code_taken_spec in Hin. congruence.
  - intros r Hr. apply in_app_or in Hr. destruct Hr as [Hr|[Hr|[]]].
    + apply Hcodes, Hr.
    + subst r. rewrite E. discriminate.
Qed.

Lemma insert_keeps_codes_unique_witness :
  exists store,
    Migration.insert Migration.authenticated [] (Sample.storedRows 3 2025)
      Sample.now2025 Sample.newRow = Some store
    /\ map (fun r => Migration.Row.pid (Migration.ProjectsRow.core r)) store
       = [Some "0"; Some "1"; Some "2"; Some "P250004"]
    /\ NoDup (map (fun r => Migration.Row.pid (Migration.ProjectsRow.core r))
                  store).
Proof.
  pose (store := Sample.storedRows 3 2025
                 ++ [Migration.ProjectsRow.with_core Sample.newRow
                       (Migration.set_project_pid
                          (map Migration.ProjectsRow.core
                               (Sample.storedRows 3 2025))
                          Sample.now2025
                          (Migration.ProjectsRow.core Sample.newRow))]).
  assert (Hins : Migration.insert Migration.authenticated []
                   (Sample.storedRows 3 2025) Sample.now2025 Sample.newRow
                 = Some store)
    by reflexivity.
  exists store. split; [exact Hins|]. split; [reflexivity|].
  destruct (insert_keeps_codes_unique Migration.authenticated []
              (Sample.storedRows 3 2025) store Sample.now2025 Sample.newRow)
    as (_ & Hnd & _).
  - vm_compute. repeat constructor; simpl; intuition discriminate.
  - intros r Hr. vm_compute in Hr.
    destruct Hr as [E|[E|[E|[]]]]; subst r; discriminate.
  - exact Hins.
  - exact Hnd.
Defined.

(** ** What the import lets through *)

Lemma minLength_nil (n : nat) (message s : string) :
  ExcelParser.minLength n message s = [] -> (n <= String.length s)%nat.
Proof.
  unfold ExcelParser.minLength.
  destruct (Nat.leb_spec n (String.length s)); [auto | discriminate].
Qed.

Lemma oneOf_nil (values : list string) (message s : string) :
  ExcelParser.oneOf values message s = [] ->
  existsb (String.eqb s) values = true.
Proof.
  unfold ExcelParser.oneOf.
  destruct (existsb (String.eqb s) values); [auto | discriminate].
Qed.

(** X17. A row the import accepts keeps its fields, and they satisfy what
    the store requires: category and quarter pass the table's CHECK
    constraints, the code is not empty, so that the insert trigger leaves
    it alone, the amount is positive and the year lies in 2000..2100. *)
Theorem accepted_row_passes_checks (c : ExcelParser.Candidate.t)
    (p : ExcelParser.ProjectData.t) :
  ExcelParser.projectSchema_parse c = ExcelParser.Parsed p ->
  ExcelParser.ProjectData.pid p = ExcelParser.Candidate.pid c
  /\ ExcelParser.ProjectData.category p = ExcelParser.Candidate.category c
  /\ ExcelParser.ProjectData.quarter p = ExcelParser.Candidate.quarter c
  /\ ExcelParser.Candidate.nett_gp c = Some (ExcelParser.ProjectData.nett_gp p)
  /\ ExcelParser.Candidate.year c = Some (ExcelParser.ProjectData.year p)
  /\ Migration.check_category (ExcelParser.ProjectData.category p) = true
  /\ Migration.check_quarter (ExcelParser.ProjectData.quarter p) = true
  /\ (0 < ExcelParser.ProjectData.nett_gp p)%Q
  /\ 2000 <= ExcelParser.ProjectData.year p <= 2100
  /\ (2 <= String.length (ExcelParser.ProjectData.business_partner p))%nat
  /\ (2 <= String.length (ExcelParser.ProjectData.end_user p))%nat
  /\ (2 <= String.length (ExcelParser.ProjectData.pic p))%nat
  /\ forall projects now created_at,
       Migration.set_project_pid projects now
         (Migration.Row.mk (Some (ExcelParser.ProjectData.pid p)) created_at)
       = Migration.Row.mk (Some (ExcelParser.ProjectData.pid p)) created_at.
Proof.
  unfold ExcelParser.projectSchema_parse. intros H.
  destruct (ExcelParser.issues c) as [|m ms] eqn:Ei; [|discriminate].
  destruct (ExcelParser.Candidate.nett_gp c) as [g|] eqn:Eg; [|discriminate].
  destruct (ExcelParser.Candidate.year c) as [y|] eqn:Ey; [|discriminate].
  inversion H; subst p. clear H.
  cbn [ExcelParser.ProjectData.pid ExcelParser.ProjectData.category
       ExcelParser.ProjectData.quarter ExcelParser.ProjectData.nett_gp
       ExcelParser.ProjectData.year ExcelParser.ProjectData.business_partner
       ExcelParser.ProjectData.end_user ExcelParser.ProjectData.pic].
  unfold ExcelParser.issues in Ei. rewrite Eg, Ey in Ei.
  repeat (apply app_eq_nil in Ei; destruct Ei as [? Ei]).
  repeat split; try reflexivity.
  - unfold Migration.check_category. eapply oneOf_nil. eassumption.
  - unfold Migration.check_quarter. eapply oneOf_nil. eassumption.
  - unfold ExcelParser.positive in *.
    destruct (Qle_bool g 0) eqn:Eq; [discriminate|].
    apply Qnot_le_lt. intros Hle. apply Qle_bool_iff in Hle. congruence.
  - match goal with
    | Hlo : (if y <? 2000 then _ else _) = [] |- _ =>
        destruct (Z.ltb_spec y 2000); [discriminate Hlo | lia]
    end.
  - match goal with
    | Hhi : (if 2100 <? y then _ else _) = [] |- _ =>
        destruct (Z.ltb_spec 2100 y); [discriminate Hhi | lia]
    end.
  - eapply minLength_nil. eassumption.
  - eapply minLength_nil. eassumption.
  - eapply minLength_nil. eassumption.
  - intros projects now created_at. unfold Migration.set_project_pid.
    cbn [Migration.Row.pid].
    destruct (String.eqb_spec (ExcelParser.Candidate.pid c) EmptyString)
      as [E|N]; [|reflexivity].
    match goal with
    | Hpid : ExcelParser.minLength 1 _ _ = [] |- _ =>
        apply minLength_nil in Hpid; rewrite E in Hpid; simpl in Hpid; lia
    end.
Qed.

Lemma accepted_row_passes_checks_witness :
  exists p,
    ExcelParser.projectSchema_parse Sample.goodRow = ExcelParser.Parsed p
    /\ Migration.check_category (ExcelParser.ProjectData.category p) = true
    /\ 2000 <= ExcelParser.ProjectData.year p <= 2100.
Proof.
  eexists. split; [reflexivity|].
  destruct (accepted_row_passes_checks Sample.goodRow _ eq_refl)
    as (_ & _ & _ & _ & _ & Hcat & _ & _ & Hyear & _).
  split; [exact Hcat | exact Hyear].
Defined.

Section ImportMore.
Context {Row P : Type}.
Variable parseRow : Row -> ExcelParser.Outcome P.

Lemma rejected_accepted_length (jsonData : list Row) (index : nat) :
  (List.length
     (filter (isRejected parseRow)
             (combine (seq index (List.length jsonData)) jsonData))
   + List.length (accepted parseRow jsonData))%nat
  = List.length jsonData.
Proof.
  revert index; induction jsonData as [|row rows IH]; intros index.
  - reflexivity.
  - cbn [List.length seq combine filter]. unfold accepted.
    cbn [flat_map]. fold (accepted parseRow rows).
    unfold isRejected at 1. cbn [snd].
    specialize (IH (S index)).
    destruct (parseRow row); cbn [isParsed negb List.length app];
      rewrite ?length_app; simpl List.length; lia.
Qed.

(** X18. The loop over the sheet loses no row and reports none twice: the
    number of error messages and the number of accepted projects add up to
    the number of rows, so a successful result carries exactly as many
    projects as the sheet has rows. *)
Theorem import_accounts_for_every_row (jsonData : list Row) :
  (List.length (ExcelParser.errors (ExcelParser.collect parseRow jsonData))
   + List.length
       (ExcelParser.validProjects (ExcelParser.collect parseRow jsonData)))%nat
  = List.length jsonData
  /\ forall data,
       ExcelParser.ParseResult.data (ExcelParser.parseRows parseRow jsonData)
       = Some data ->
       List.length data = List.length jsonData.
Proof.
  pose proof (rejected_accepted_length jsonData 0) as Hlen.
  unfold ExcelParser.parseRows. rewrite collect_spec.
  cbn [ExcelParser.errors ExcelParser.validProjects].
  rewrite length_map. unfold rejected, indexed. split; [exact Hlen|].
  intros data.
  destruct (filter (isRejected parseRow)
              (combine (seq 0 (List.length jsonData)) jsonData))
    as [|bad more]; simpl.
  - destruct (accepted parseRow jsonData) as [|project projects] eqn:E;
      simpl; intros H; inversion H; subst.
    simpl in Hlen. exact Hlen.
  - discriminate.
Qed.
End ImportMore.

Lemma import_accounts_for_every_row_witness :
  exists data,
    ExcelParser.ParseResult.data
      (ExcelParser.parseRows ExcelParser.projectSchema_parse Sample.sheetGood)
    = Some data
    /\ List.length data = 2%nat.
Proof.
  destruct (import_accounts_for_every_row ExcelParser.projectSchema_parse
              Sample.sheetGood) as [_ Hdata].
  eexists. split; [reflexivity|].
  apply (Hdata _ eq_refl).
Defined.
